(** * Short Time Historic (STH) server: the HTTP handlers of [lib/sth_server.js]

    A shallow embedding of the request handlers of the STH server (the query
    planner of the [GET] data route, its header validator, and the ingestion
    coordinator behind [POST /notify]) together with the properties of the
    specification that concern them.

    Conventions of the embedding:
    - JavaScript values are the inductive [JsValue]; property reads on
      [undefined] and [null] throw, which is the [Throw] case of [Completion];
    - the calls a handler makes on its collaborators (the database driver
      [sthDatabase], hapi's [reply], [response.header] and [next]) are
      recorded, in program order, as a list of [Effect];
    - asynchronous callbacks are kept in a list of pending continuations; a
      schedule picks which one the driver fires next and with which result;
      the driver fires a callback once, after the code that registered it
      has returned;
    - logging calls ([sthLogger]) have no influence on control flow and are
      left out. *)

From stdpp Require Import base option list strings gmap.
From Stdlib Require Import ZArith QArith Ascii String Lia.

Close Scope Q_scope.
Open Scope string_scope.
Open Scope list_scope.
Open Scope Z_scope.

(** ** JavaScript values *)

Module Js.

(** The values a parsed JSON payload or a validated query can hold.  A
    number is the exact rational value of the double; [NaN] and the
    infinities cannot come out of [JSON.parse] of a well-formed integer or
    decimal literal in range and are not modelled. An object is the list of
    its own properties, first binding first. *)
#[warnings="-register-all"]
Inductive JsValue : Type :=
| JUndefined
| JNull
| JBool (b : bool)
| JNumber (q : Q)
| JString (s : string)
| JArray (items : list JsValue)
| JObject (fields : list (string * JsValue)).

(** [ToBoolean]: what [if (v)], [!v], [&&] and [||] test. *)
Definition truthy (v : JsValue) : bool :=
  match v with
  | JUndefined | JNull => false
  | JBool b => b
  | JNumber q => negb (Qnum q =? 0)
  | JString s => negb (String.eqb s EmptyString)
  | JArray _ | JObject _ => true
  end.

(** The [typeof] operator. *)
Definition typeof (v : JsValue) : string :=
  match v with
  | JUndefined => "undefined"
  | JNull => "object"
  | JBool _ => "boolean"
  | JNumber _ => "number"
  | JString _ => "string"
  | JArray _ | JObject _ => "object"
  end.

(** [Array.isArray]. *)
Definition isArray (v : JsValue) : bool :=
  match v with JArray _ => true | _ => false end.

(** The elements of an array, visited by [for (i = 0; i < a.length; i++)]. *)
Definition arrayItems (v : JsValue) : list JsValue :=
  match v with JArray items => items | _ => [] end.

(** [v === 0]. *)
Definition isZero (v : JsValue) : bool :=
  match v with JNumber q => Qnum q =? 0 | _ => false end.

Fixpoint lookupField (k : string) (fields : list (string * JsValue)) : JsValue :=
  match fields with
  | [] => JUndefined
  | (k', v) :: rest => if String.eqb k k' then v else lookupField k rest
  end.

(** [v.k] for a value that is neither [undefined] nor [null], and for a
    key [k] that is no built-in property of strings, arrays, numbers or
    of [Object.prototype] (the handlers only read [contextResponses],
    [contextElement], [attributes], [value], [id], [type] and [name]). *)
Definition getMember (v : JsValue) (k : string) : JsValue :=
  match v with
  | JObject fields => lookupField k fields
  | _ => JUndefined
  end.

Inductive JsError : Type := TypeError.

(** The outcome of synchronous code: a value, or a thrown exception. *)
Inductive Completion (A : Type) : Type :=
| Normal (a : A)
| Throw (e : JsError).
Arguments Normal {A} a.
Arguments Throw {A} e.

Definition bind {A B} (c : Completion A) (f : A -> Completion B) : Completion B :=
  match c with
  | Normal a => f a
  | Throw e => Throw e
  end.

(** The property read [v.k]: a [TypeError] on [undefined] and [null]. *)
Definition getProp (v : JsValue) (k : string) : Completion JsValue :=
  match v with
  | JUndefined | JNull => Throw TypeError
  | _ => Normal (getMember v k)
  end.

(** *** Strings

    A character is a UTF-16 code unit below 256 (Latin-1). *)

(** The code units of that range in [WhiteSpace] or [LineTerminator]:
    TAB, LF, VT, FF, CR, SP and NBSP. *)
Definition isWhiteSpace (c : ascii) : bool :=
  let n := nat_of_ascii c in
  ((9 <=? n) && (n <=? 13) || (n =? 32) || (n =? 160))%nat.

Fixpoint trimStart (s : string) : string :=
  match s with
  | EmptyString => EmptyString
  | String c rest => if isWhiteSpace c then trimStart rest else s
  end.

(** [trimEnd] as a right fold: a white-space character is dropped when
    everything after it has been dropped. *)
Fixpoint trimEnd (s : string) : string :=
  match s with
  | EmptyString => EmptyString
  | String c rest =>
      match trimEnd rest with
      | EmptyString => if isWhiteSpace c then EmptyString else String c EmptyString
      | r => String c r
      end
  end.

(** [String.prototype.trim]. *)
Definition trim (s : string) : string := trimEnd (trimStart s).

(** The string made of one double quote. *)
Definition dquote : string := String (ascii_of_nat 34) EmptyString.

(** [v.trim()] for a string [v]. *)
Definition trimOf (v : JsValue) : string :=
  match v with JString s => trim s | _ => EmptyString end.

Definition lowerChar (c : ascii) : ascii :=
  let n := nat_of_ascii c in
  if ((65 <=? n) && (n <=? 90) ||
      (192 <=? n) && (n <=? 222) && negb (n =? 215))%nat
  then ascii_of_nat (n + 32) else c.

(** [String.prototype.toLowerCase]. *)
Fixpoint toLowerCase (s : string) : string :=
  match s with
  | EmptyString => EmptyString
  | String c rest => String (lowerChar c) (toLowerCase rest)
  end.

(** [v.toLowerCase()] for a string [v]. *)
Definition lowerOf (v : JsValue) : string :=
  match v with JString s => toLowerCase s | _ => EmptyString end.

End Js.
Export Js.

#[global] Instance Completion_ret : MRet Completion := fun A a => Normal a.
#[global] Instance Completion_bind : MBind Completion := fun A B f c => bind c f.

(** ** Configuration, requests and collaborators *)

(** [sthConfig.DATA_TO_STORE]. *)
Inductive DataToStore : Type := ONLY_RAW | ONLY_AGGREGATED | BOTH.

Definition DataToStore_eqb (a b : DataToStore) : bool :=
  match a, b with
  | ONLY_RAW, ONLY_RAW | ONLY_AGGREGATED, ONLY_AGGREGATED | BOTH, BOTH => true
  | _, _ => false
  end.

(** Modelled from the spec: [lib/sth_configuration.js] is not part of the
    sources at hand; these are the recognised options of section 6 that
    [sth_server.js] reads from [sthConfig]. *)
Record Config : Type := {
  SHOULD_STORE : DataToStore;
  IGNORE_BLANK_SPACES : bool;
  FILTER_OUT_EMPTY : bool;
  UNICA_CORRELATOR_HEADER : string;
  DEFAULT_SERVICE : string;
  DEFAULT_SERVICE_PATH : string
}.

(** [request.query] after hapi has applied the joi schema of the route: the
    numeric and string parameters are values, the two dates are instants. *)
Record Query : Type := {
  lastN : JsValue;
  hLimit : JsValue;
  hOffset : JsValue;
  aggrMethod : JsValue;
  aggrPeriod : JsValue;
  dateFrom : option Z;
  dateTo : option Z;
  filetype : JsValue
}.

(** [request.params] of the data route. *)
Record Params : Type := {
  entityType : string;
  entityId : string;
  attrName : string
}.

Record Request : Type := {
  headers : gmap string string;
  params : Params;
  query : Query;
  payload : JsValue
}.

(** [request.headers[name]]. *)
Definition header (request : Request) (name : string) : JsValue :=
  match headers request !! name with
  | Some s => JString s
  | None => JUndefined
  end.

(** The [validation] member set on a boom error's payload. *)
Record Validation : Type := {
  source : string;
  keys : list string
}.

(** An error object: one handed over by the database driver, or one built
    with [boom]. *)
Inductive Error : Type :=
| DbError (reason : string)
| Boom (statusCode : Z) (message : string) (validation : option Validation).

(** [boom.badRequest(message)]. *)
Definition badRequest (message : string) : Error := Boom 400 message None.

(** [error.output.payload.validation = v]. *)
Definition setValidation (e : Error) (v : Validation) : Error :=
  match e with
  | Boom code message _ => Boom code message (Some v)
  | DbError reason => DbError reason
  end.

(** The collection handle the driver passes to the callback. *)
Record Collection : Type := { collectionName : string }.

(** First argument of [sthDatabase.getCollection]. *)
Record CollectionParams : Type := {
  cp_service : JsValue;
  cp_servicePath : JsValue;
  cp_entityId : JsValue;
  cp_entityType : JsValue;
  cp_attrName : JsValue
}.

(** Second argument of [sthDatabase.getCollection]. *)
Record CollectionOptions : Type := {
  isAggregated : bool;
  shouldCreate : bool;
  shouldStoreHash : bool;
  shouldTruncate : bool
}.

(** Argument of [sthDatabase.getRawData]. *)
Record RawDataArgs : Type := {
  rd_collection : Collection;
  rd_entityId : string;
  rd_entityType : string;
  rd_attrName : string;
  rd_lastN : JsValue;
  rd_hLimit : JsValue;
  rd_hOffset : JsValue;
  rd_from : option Z;
  rd_to : option Z;
  rd_filetype : JsValue
}.

(** Argument of [sthDatabase.getAggregatedData]. *)
Record AggregatedDataArgs : Type := {
  ad_collection : Collection;
  ad_entityId : string;
  ad_entityType : string;
  ad_attrName : string;
  ad_aggregatedFunction : JsValue;
  ad_resolution : JsValue;
  ad_from : option Z;
  ad_to : option Z;
  ad_shouldFilter : bool
}.

(** Argument of [sthDatabase.storeRawData] and
    [sthDatabase.storeAggregatedData]. *)
Record StoreArgs : Type := {
  sa_collection : Collection;
  sa_recvTime : Z;
  sa_entityId : JsValue;
  sa_entityType : JsValue;
  sa_attribute : JsValue
}.

(** What a data query hands to its callback as [result]. *)
Inductive DataResult : Type :=
| ResultNone
| ResultDocs (docs : list JsValue)
| ResultStream
| ResultFile (path : string).

(** What a handler passes to hapi's [reply]. *)
Inductive ReplyValue : Type :=
| ReplyEmpty
| ReplyError (e : Error)
| ReplyPayload (body : JsValue)
| ReplyReadable.

(** The calls a handler makes on its collaborators; [Raise] is the
    exception that leaves a callback when such a call throws. *)
Inductive Effect : Type :=
| DbGetCollection (p : CollectionParams) (o : CollectionOptions)
| DbGetRawData (a : RawDataArgs)
| DbGetAggregatedData (a : AggregatedDataArgs)
| DbStoreRawData (a : StoreArgs)
| DbStoreAggregatedData (a : StoreArgs)
| Reply (r : ReplyValue)
| ReplyFile (path : string)
| ResponseHeader (name value : string)
| ResponseOnceFinishUnlink (path : string)
| Next (err : option Error)
| Raise (e : JsError).

(** [reply(err)] with the [err] of a driver callback: an error object, or
    [null]/[undefined] on success. *)
Definition replyErr (err : option Error) : Effect :=
  match err with
  | Some e => Reply (ReplyError e)
  | None => Reply ReplyEmpty
  end.

(** *** The helper module

    Modelled from the spec: [lib/sth_helper.js] is not part of the sources
    at hand. [getEmptyResponse] and [getNGSIPayload] follow the response
    envelope of section 6: an empty result is the empty list, placed like
    any result under [values]. *)
Definition getEmptyResponse : JsValue := JArray [].

Definition getNGSIPayload (entityId entityType attrName : string)
    (values : JsValue) : JsValue :=
  JObject
    [("contextResponses",
      JArray
        [JObject
           [("contextElement",
             JObject
               [("id", JString entityId);
                ("type", JString entityType);
                ("isPattern", JBool false);
                ("attributes",
                 JArray
                   [JObject [("name", JString attrName); ("values", values)]])]);
            ("statusCode",
             JObject
               [("code", JString "200"); ("reasonPhrase", JString "OK")])]])].

(** *** What hapi sends

    Modelled from the spec: hapi is an external collaborator; the status
    codes are those of section 6. A payload, a stream or a file is a 200; a
    boom error carries its own status; any other error object is a 500. *)
Definition statusOfError (e : Error) : Z :=
  match e with
  | Boom code _ _ => code
  | DbError _ => 500
  end.

Definition statusOfReply (r : ReplyValue) : Z :=
  match r with
  | ReplyError e => statusOfError e
  | ReplyEmpty | ReplyPayload _ | ReplyReadable => 200
  end.

(** The replies of a trace, in order. *)
Definition isReply (e : Effect) : bool :=
  match e with Reply _ | ReplyFile _ => true | _ => false end.

Definition repliesOf (effects : list Effect) : list Effect :=
  List.filter isReply effects.

(** The headers set with [response.header] in a trace. *)
Definition responseHeaders (effects : list Effect) : list (string * string) :=
  omap (fun e => match e with
                 | ResponseHeader n v => Some (n, v)
                 | _ => None
                 end) effects.

(** The status of the response a trace gives rise to, when it replies with
    a value. For [reply.file] it is hapi that finds the status when it opens
    the file (200, or 404 or 403 when the path names no readable file): no
    status is given here. *)
Definition responseStatus (effects : list Effect) : option Z :=
  match repliesOf effects with
  | Reply r :: _ => Some (statusOfReply r)
  | _ => None
  end.

(** ** The query planner: [GET] on the data route *)

(** The answers of the collaborators to one data query. Of the driver:
    [err] and [collection] of [getCollection]; [err] of the data read, and
    its [result], for a raw read ([qd_result]) and for an aggregated read
    ([qd_buckets]: the buckets found, if a result is passed at all). Of joi,
    which hapi applies to the query with the schema of lines 670-679:
    nothing when it accepts the query, and when it refuses it the message
    and the keys of its error ([qd_refusal]). *)
Record QueryDb : Type := {
  qd_collectionErr : option Error;
  qd_collection : Collection;
  qd_dataErr : option Error;
  qd_result : DataResult;
  qd_buckets : option (list JsValue);
  qd_refusal : option (string * list string)
}.

(** [!!result]. *)
Definition resultTruthy (r : DataResult) : bool :=
  match r with
  | ResultNone => false
  | ResultDocs _ | ResultStream => true
  | ResultFile path => negb (String.eqb path EmptyString)
  end.

(** [!!result.length]: a stream has no [length]. *)
Definition resultHasLength (r : DataResult) : bool :=
  match r with
  | ResultDocs docs => negb (Nat.eqb (List.length docs) 0)
  | ResultFile path => negb (Nat.eqb (String.length path) 0)
  | ResultNone | ResultStream => false
  end.

(** [result instanceof stream]. *)
Definition instanceofStream (r : DataResult) : bool :=
  match r with ResultStream => true | _ => false end.

Fixpoint hasSep (s : string) : bool :=
  match s with
  | EmptyString => false
  | String c rest => Ascii.eqb c "/" || hasSep rest
  end.

(** [result.substring(result.lastIndexOf(path.sep) + 1)], with [/] for
    [path.sep]. *)
Fixpoint fileNameOf (s : string) : string :=
  match s with
  | EmptyString => EmptyString
  | String c rest =>
      if hasSep rest then fileNameOf rest
      else if Ascii.eqb c "/" then rest else s
  end.

(** [if (unicaCorrelatorPassed) response.header('Unica-Correlator', ...)]. *)
Definition echoCorrelator (unicaCorrelatorPassed : JsValue) : list Effect :=
  match unicaCorrelatorPassed with
  | JString s =>
      if truthy unicaCorrelatorPassed then [ResponseHeader "Unica-Correlator" s]
      else []
  | _ => []
  end.

(** The same statement for the [response] that [reply(err)] has returned
    (lines 201-203 and 301-303): with an error, [reply] returns that error,
    a boom object without a [header] method, and the call throws. *)
Definition echoCorrelatorAfter (err : option Error)
    (unicaCorrelatorPassed : JsValue) : list Effect :=
  match err with
  | Some _ => if truthy unicaCorrelatorPassed then [Raise TypeError] else []
  | None => echoCorrelator unicaCorrelatorPassed
  end.

(** The empty envelope both planners answer with. *)
Definition emptyPayload (request : Request) : JsValue :=
  getNGSIPayload (entityId (params request)) (entityType (params request))
    (attrName (params request)) getEmptyResponse.

(** The callback of [sthDatabase.getRawData] (lines 142-204). *)
Definition getRawData_onData (request : Request) (unicaCorrelatorPassed : JsValue)
    (err : option Error) (result : DataResult) : list Effect :=
  (match err with
   | Some e => [Reply (ReplyError e)]
   | None =>
       if negb (resultTruthy result)
          || negb (resultHasLength result || instanceofStream result)
       then [Reply (ReplyPayload (emptyPayload request))]
       else
         match result with
         | ResultStream => [Reply ReplyReadable]
         | ResultFile path =>
             [ReplyFile path;
              ResponseHeader "Content-Disposition"
                ("attachment; filename=" ++ fileNameOf path);
              ResponseOnceFinishUnlink path]
         | ResultDocs docs =>
             [Reply (ReplyPayload
                       (getNGSIPayload (entityId (params request))
                          (entityType (params request))
                          (attrName (params request)) (JArray docs)))]
         | ResultNone => []
         end
   end) ++ echoCorrelatorAfter err unicaCorrelatorPassed.

(** The callback of [sthDatabase.getCollection] in [getRawData]
    (lines 108-207). *)
Definition getRawData_onCollection (request : Request)
    (unicaCorrelatorPassed : JsValue) (db : QueryDb) : list Effect :=
  match qd_collectionErr db with
  | Some _ => [Reply (ReplyPayload (emptyPayload request))]
  | None =>
      DbGetRawData
        {| rd_collection := qd_collection db;
           rd_entityId := entityId (params request);
           rd_entityType := entityType (params request);
           rd_attrName := attrName (params request);
           rd_lastN := lastN (query request);
           rd_hLimit := hLimit (query request);
           rd_hOffset := hOffset (query request);
           rd_from := dateFrom (query request);
           rd_to := dateTo (query request);
           rd_filetype := filetype (query request) |}
      :: getRawData_onData request unicaCorrelatorPassed
           (qd_dataErr db) (qd_result db)
  end.

(** The collection a query reads: never created, hashed or truncated. *)
Definition queryCollection (request : Request) : CollectionParams :=
  {| cp_service := header request "fiware-service";
     cp_servicePath := header request "fiware-servicepath";
     cp_entityId := JString (entityId (params request));
     cp_entityType := JString (entityType (params request));
     cp_attrName := JString (attrName (params request)) |}.

Definition queryOptions (aggregated : bool) : CollectionOptions :=
  {| isAggregated := aggregated;
     shouldCreate := false;
     shouldStoreHash := false;
     shouldTruncate := false |}.

(** [getRawData(request, reply, unicaCorrelatorPassed)] (lines 91-209). *)
Definition getRawData (request : Request) (unicaCorrelatorPassed : JsValue)
    (db : QueryDb) : list Effect :=
  DbGetCollection (queryCollection request) (queryOptions false)
  :: getRawData_onCollection request unicaCorrelatorPassed db.

(** The callback of [sthDatabase.getAggregatedData] (lines 267-304). *)
Definition getAggregatedData_onData (request : Request)
    (unicaCorrelatorPassed : JsValue) (err : option Error)
    (result : option (list JsValue)) : list Effect :=
  (match err with
   | Some e => [Reply (ReplyError e)]
   | None =>
       match result with
       | None | Some [] => [Reply (ReplyPayload (emptyPayload request))]
       | Some buckets =>
           [Reply (ReplyPayload
                     (getNGSIPayload (entityId (params request))
                        (entityType (params request))
                        (attrName (params request)) (JArray buckets)))]
       end
   end) ++ echoCorrelatorAfter err unicaCorrelatorPassed.

(** The callback of [sthDatabase.getCollection] in [getAggregatedData]
    (lines 234-307). *)
Definition getAggregatedData_onCollection (cfg : Config) (request : Request)
    (unicaCorrelatorPassed : JsValue) (db : QueryDb) : list Effect :=
  match qd_collectionErr db with
  | Some _ => [Reply (ReplyPayload (emptyPayload request))]
  | None =>
      DbGetAggregatedData
        {| ad_collection := qd_collection db;
           ad_entityId := entityId (params request);
           ad_entityType := entityType (params request);
           ad_attrName := attrName (params request);
           ad_aggregatedFunction := aggrMethod (query request);
           ad_resolution := aggrPeriod (query request);
           ad_from := dateFrom (query request);
           ad_to := dateTo (query request);
           ad_shouldFilter := FILTER_OUT_EMPTY cfg |}
      :: getAggregatedData_onData request unicaCorrelatorPassed
           (qd_dataErr db) (qd_buckets db)
  end.

(** [getAggregatedData(request, reply, unicaCorrelatorPassed)]
    (lines 217-309). *)
Definition getAggregatedData (cfg : Config) (request : Request)
    (unicaCorrelatorPassed : JsValue) (db : QueryDb) : list Effect :=
  DbGetCollection (queryCollection request) (queryOptions true)
  :: getAggregatedData_onCollection cfg request unicaCorrelatorPassed db.

(** The reply of the data route when no parameter combination is given. *)
Definition queryParamsError : Error :=
  setValidation
    (badRequest
       ("A combination of the following query params is required: lastN, hLimit and hOffset, "
        ++ "filetype, or aggrMethod and aggrPeriod"))
    {| source := "query";
       keys := ["lastN"; "hLimit"; "hOffset"; "filetype"; "aggrMethod"; "aggrPeriod"] |}.

(** The handler of the data route (lines 598-637). *)
Definition dataHandler (cfg : Config) (request : Request) (db : QueryDb)
    : list Effect :=
  let unicaCorrelatorPassed := header request (UNICA_CORRELATOR_HEADER cfg) in
  let q := query request in
  if (truthy (lastN q) || isZero (lastN q))
     || ((truthy (hLimit q) || isZero (hLimit q))
         && (truthy (hOffset q) || isZero (hOffset q)))
     || (truthy (filetype q) && String.eqb (lowerOf (filetype q)) "csv")
  then getRawData request unicaCorrelatorPassed db
  else if truthy (aggrMethod q) && truthy (aggrPeriod q)
  then getAggregatedData cfg request unicaCorrelatorPassed db
  else [Reply (ReplyError queryParamsError)].

(** The header validator of the data route (lines 640-669): the new value
    of [attendedRequests], and the calls of [next]. Neither branch returns
    after [next(error)], so [next()] is called in every case. *)
Definition validateDataHeaders (attendedRequests : Z)
    (value : gmap string string) : Z * list Effect :=
  let missing name :=
    match value !! name with
    | Some s => String.eqb s EmptyString
    | None => true
    end in
  (attendedRequests + 1,
   ((if missing "fiware-service" then
      [Next (Some (setValidation
                     (badRequest
                        ("error=child " ++ dquote ++ "fiware-service" ++ dquote
                         ++ " fails because [fiware-service is required]"))
                     {| source := "headers"; keys := ["fiware-service"] |}))]
    else if missing "fiware-servicepath" then
      [Next (Some (setValidation
                     (badRequest
                        ("child " ++ dquote ++ "fiware-servicepath" ++ dquote
                         ++ " fails because [fiware-servicepath is required]"))
                     {| source := "headers"; keys := ["fiware-servicepath"] |}))]
     else [])
    ++ [Next None])%list).

(** hapi acts on the first call of [next]: with an error it refuses the
    request and the handler is not entered. *)
Definition validationFailure (calls : list Effect) : option Error :=
  match calls with
  | Next (Some e) :: _ => Some e
  | _ => None
  end.

(** [err.message]. *)
Definition messageOf (e : Error) : string :=
  match e with
  | DbError reason => reason
  | Boom _ message _ => message
  end.

(** hapi's answer to a request whose validation of [source] fails with an
    error of message [message]: not that error, but a [boom.badRequest] of
    its own with the same message, whose [validation] names the source and
    the keys of the error's joi details. The error of a function validator
    has no such details, and its keys are none. *)
Definition refusal (source message : string) (keys : list string) : Error :=
  Boom 400 message (Some {| source := source; keys := keys |}).

(** The data route: header validation, then joi on the query, then the
    handler. *)
Definition dataRoute (cfg : Config) (attendedRequests : Z) (request : Request)
    (db : QueryDb) : Z * list Effect :=
  let '(attended, calls) := validateDataHeaders attendedRequests (headers request) in
  (attended,
   match validationFailure calls with
   | Some e => [Reply (ReplyError (refusal "headers" (messageOf e) []))]
   | None =>
       match qd_refusal db with
       | Some (message, keys) =>
           [Reply (ReplyError (refusal "query" message keys))]
       | None => dataHandler cfg request db
       end
   end).

(** ** The ingestion coordinator: [POST /notify] *)

(** The [data] object handed to [storeRawData] and [storeAggregatedData];
    its [request] member is the request being served. *)
Record TaskData : Type := {
  contextElement : JsValue;
  attribute : JsValue;
  recvTime : Z
}.

(** A callback registered with the driver and not fired yet. *)
Inductive Pending : Type :=
| RawCollectionCallback (data : TaskData)
| RawStoredCallback (data : TaskData)
| AggregatedCollectionCallback (data : TaskData)
| AggregatedStoredCallback (data : TaskData).

(** The state of one notification being served: the shared [counterObj],
    the callbacks in flight, and the calls made so far. *)
Record Ingest : Type := {
  counter : Z;
  pending : list Pending;
  trace : list Effect
}.

Definition emit (e : Effect) (st : Ingest) : Ingest :=
  {| counter := counter st; pending := pending st; trace := trace st ++ [e] |}.

Definition register (p : Pending) (st : Ingest) : Ingest :=
  {| counter := counter st; pending := pending st ++ [p]; trace := trace st |}.

(** [if (++counterObj.counter === totalTasks) reply(err)]. *)
Definition countAndReply (totalTasks : Z) (err : option Error) (st : Ingest)
    : Ingest :=
  let st' := {| counter := counter st + 1;
                pending := pending st;
                trace := trace st |} in
  if counter st' =? totalTasks then emit (replyErr err) st' else st'.

(** The collection an attribute is stored in: created, hashed and truncated
    as needed. *)
Definition storeOptions (aggregated : bool) : CollectionOptions :=
  {| isAggregated := aggregated;
     shouldCreate := true;
     shouldStoreHash := true;
     shouldTruncate := true |}.

(** The first argument of [getCollection] in the two store functions
    (lines 334-340 and 417-423). *)
Definition storeCollection (request : Request) (data : TaskData)
    : Completion CollectionParams :=
  id ← getProp (contextElement data) "id";
  type ← getProp (contextElement data) "type";
  name ← getProp (attribute data) "name";
  Normal {| cp_service := header request "fiware-service";
            cp_servicePath := header request "fiware-servicepath";
            cp_entityId := id;
            cp_entityType := type;
            cp_attrName := name |}.

(** The argument of the driver's store calls (lines 365-371 and 448-454).
    It is built inside a callback of [getCollection], after
    [storeCollection] has read the same members of the same objects. *)
Definition storeArgs (data : TaskData) (collection : Collection) : StoreArgs :=
  {| sa_collection := collection;
     sa_recvTime := recvTime data;
     sa_entityId := getMember (contextElement data) "id";
     sa_entityType := getMember (contextElement data) "type";
     sa_attribute := attribute data |}.

(** [storeRawData(data, counterObj, totalTasks, reply)] up to the call of
    [getCollection] (lines 323-346). *)
Definition storeRawData (request : Request) (data : TaskData) (st : Ingest)
    : Completion Ingest :=
  p ← storeCollection request data;
  Normal (register (RawCollectionCallback data)
            (emit (DbGetCollection p (storeOptions false)) st)).

(** The callback of [getCollection] in [storeRawData] (lines 347-391). *)
Definition storeRawData_onCollection (cfg : Config) (totalTasks : Z)
    (data : TaskData) (err : option Error) (collection : Collection)
    (st : Ingest) : Ingest :=
  match err with
  | Some e => countAndReply totalTasks (Some e) st
  | None =>
      if DataToStore_eqb (SHOULD_STORE cfg) ONLY_RAW
         || DataToStore_eqb (SHOULD_STORE cfg) BOTH
      then register (RawStoredCallback data)
             (emit (DbStoreRawData (storeArgs data collection)) st)
      else st
  end.

(** The callback of [sthDatabase.storeRawData] (lines 372-387). *)
Definition storeRawData_onStored (totalTasks : Z) (err : option Error)
    (st : Ingest) : Ingest :=
  countAndReply totalTasks err st.

(** [storeAggregatedData(data, counterObj, totalTasks, reply)] up to the
    call of [getCollection] (lines 407-429). *)
Definition storeAggregatedData (request : Request) (data : TaskData)
    (st : Ingest) : Completion Ingest :=
  p ← storeCollection request data;
  Normal (register (AggregatedCollectionCallback data)
            (emit (DbGetCollection p (storeOptions true)) st)).

(** The callback of [getCollection] in [storeAggregatedData]
    (lines 430-474). *)
Definition storeAggregatedData_onCollection (cfg : Config) (totalTasks : Z)
    (data : TaskData) (err : option Error) (collection : Collection)
    (st : Ingest) : Ingest :=
  match err with
  | Some e => countAndReply totalTasks (Some e) st
  | None =>
      if DataToStore_eqb (SHOULD_STORE cfg) ONLY_AGGREGATED
         || DataToStore_eqb (SHOULD_STORE cfg) BOTH
      then register (AggregatedStoredCallback data)
             (emit (DbStoreAggregatedData (storeArgs data collection)) st)
      else st
  end.

(** The callback of [sthDatabase.storeAggregatedData] (lines 455-470). *)
Definition storeAggregatedData_onStored (totalTasks : Z) (err : option Error)
    (st : Ingest) : Ingest :=
  countAndReply totalTasks err st.

(** The test that makes both loops [continue] (lines 493-496 and 552-555):
    the attribute's value is not aggregatable. *)
Definition notAggregatable (cfg : Config) (attr : JsValue) : Completion bool :=
  value ← getProp attr "value";
  Normal (negb (truthy value)
          || (negb (String.eqb (typeof value) "string")
              && negb (String.eqb (typeof value) "number"))
          || (IGNORE_BLANK_SPACES cfg
              && String.eqb (typeof value) "string"
              && String.eqb (trimOf value) EmptyString)).

(** The attributes of one element of [contextResponses] that the loops
    visit, with their context element: the guard of lines 487-489 and
    546-548. *)
Definition attributesToVisit (contextResponse : JsValue)
    : Completion (option (JsValue * list JsValue)) :=
  ce ← getProp contextResponse "contextElement";
  if truthy ce then
    attrs ← getProp ce "attributes";
    if truthy attrs && isArray attrs
    then Normal (Some (ce, arrayItems attrs))
    else Normal None
  else Normal None.

(** The inner loop of [getTotalAttributes] (lines 492-500). *)
Fixpoint countAttributes (cfg : Config) (attributes : list JsValue)
    (totalAttributes : Z) : Completion Z :=
  match attributes with
  | [] => Normal totalAttributes
  | attr :: rest =>
      skip ← notAggregatable cfg attr;
      countAttributes cfg rest
        (if (skip : bool) then totalAttributes else totalAttributes + 1)
  end.

(** The outer loop of [getTotalAttributes] (lines 486-502). *)
Fixpoint countContextResponses (cfg : Config) (contextResponses : list JsValue)
    (totalAttributes : Z) : Completion Z :=
  match contextResponses with
  | [] => Normal totalAttributes
  | cr :: rest =>
      visit ← attributesToVisit cr;
      total ← match visit with
              | Some (_, attributes) =>
                  countAttributes cfg attributes totalAttributes
              | None => Normal totalAttributes
              end;
      countContextResponses cfg rest total
  end.

(** [getTotalAttributes(contextResponses)] (lines 483-504). *)
Definition getTotalAttributes (cfg : Config) (contextResponses : JsValue)
    : Completion Z :=
  countContextResponses cfg (arrayItems contextResponses) 0.

(** The inner loop of [processAttributes] (lines 551-589). *)
Fixpoint processContextElement (cfg : Config) (request : Request) (recvTime : Z)
    (contextElement : JsValue) (attributes : list JsValue) (st : Ingest)
    : Completion Ingest :=
  match attributes with
  | [] => Normal st
  | attr :: rest =>
      skip ← notAggregatable cfg attr;
      if (skip : bool) then
        processContextElement cfg request recvTime contextElement rest st
      else
        let data := {| contextElement := contextElement;
                       attribute := attr;
                       recvTime := recvTime |} in
        st1 ← storeRawData request data st;
        st2 ← storeAggregatedData request data st1;
        processContextElement cfg request recvTime contextElement rest st2
  end.

(** The outer loop of [processAttributes] (lines 545-591). *)
Fixpoint processContextResponses (cfg : Config) (request : Request)
    (recvTime : Z) (contextResponses : list JsValue) (st : Ingest)
    : Completion Ingest :=
  match contextResponses with
  | [] => Normal st
  | cr :: rest =>
      visit ← attributesToVisit cr;
      st' ← match visit with
            | Some (ce, attributes) =>
                processContextElement cfg request recvTime ce attributes st
            | None => Normal st
            end;
      processContextResponses cfg request recvTime rest st'
  end.

(** [totalTasks] of [processAttributes] (lines 528-529). *)
Definition totalTasksOf (cfg : Config) (totalAttributes : Z) : Z :=
  if DataToStore_eqb (SHOULD_STORE cfg) BOTH
  then 2 * totalAttributes else 1 * totalAttributes.

(** The reply of [processAttributes] when nothing is aggregatable. *)
Definition noAttributesError : Error :=
  setValidation
    (badRequest
       "At least one attribute with an aggregatable value should be included in the notification")
    {| source := "payload"; keys := ["attributes"] |}.

Definition initialIngest : Ingest :=
  {| counter := 0; pending := []; trace := [] |}.

(** [processAttributes(recvTime, request, reply)] (lines 514-592), up to
    its return: the [totalTasks] its callbacks have captured, and the state
    it leaves, with the callbacks in flight in [pending]. *)
Definition processAttributes (cfg : Config) (recvTime : Z) (request : Request)
    : Completion (Z * Ingest) :=
  contextResponses ← getProp (payload request) "contextResponses";
  totalAttributes ← getTotalAttributes cfg contextResponses;
  let totalTasks := totalTasksOf cfg totalAttributes in
  if totalAttributes =? 0 then
    Normal (totalTasks, emit (Reply (ReplyError noAttributesError)) initialIngest)
  else
    st ← processContextResponses cfg request recvTime
           (arrayItems contextResponses) initialIngest;
    Normal (totalTasks, st).

(** The handler of [POST /notify] (lines 694-708). *)
Definition notifyHandler (cfg : Config) (recvTime : Z) (request : Request)
    : Completion (Z * Ingest) :=
  if truthy (payload request)
     && truthy (getMember (payload request) "contextResponses")
     && isArray (getMember (payload request) "contextResponses")
  then processAttributes cfg recvTime request
  else Normal (0, initialIngest).

(** The header validator of [POST /notify] (lines 711-721): the new value
    of [attendedRequests], the headers with the defaults filled in, and
    the call of [next]. *)
Definition validateNotifyHeaders (cfg : Config) (attendedRequests : Z)
    (value : gmap string string) : Z * gmap string string * list Effect :=
  let missing (v : gmap string string) name :=
    match v !! name with
    | Some s => String.eqb s EmptyString
    | None => true
    end in
  let value1 :=
    if missing value "fiware-service"
    then <["fiware-service" := DEFAULT_SERVICE cfg]> value else value in
  let value2 :=
    if missing value1 "fiware-servicepath"
    then <["fiware-servicepath" := DEFAULT_SERVICE_PATH cfg]> value1 else value1 in
  (attendedRequests + 1, value2, [Next None]).

(** *** The callbacks in flight

    The driver fires the callbacks one at a time, in an order and with
    results of its own choosing. A [Firing] is one such choice: which of
    the pending callbacks (counted modulo their number), and the [err] and
    [collection] it is called with. *)
Record Firing : Type := {
  which : nat;
  err : option Error;
  collection : Collection
}.

(** The body of a callback. *)
Definition runCallback (cfg : Config) (totalTasks : Z) (p : Pending)
    (f : Firing) (st : Ingest) : Ingest :=
  match p with
  | RawCollectionCallback data =>
      storeRawData_onCollection cfg totalTasks data (err f) (collection f) st
  | RawStoredCallback _ =>
      storeRawData_onStored totalTasks (err f) st
  | AggregatedCollectionCallback data =>
      storeAggregatedData_onCollection cfg totalTasks data (err f) (collection f) st
  | AggregatedStoredCallback _ =>
      storeAggregatedData_onStored totalTasks (err f) st
  end.

(** One turn of the event loop: the chosen callback leaves [pending] and
    runs. With nothing pending, nothing happens. *)
Definition fire (cfg : Config) (totalTasks : Z) (f : Firing) (st : Ingest)
    : Ingest :=
  let i := (which f mod List.length (pending st))%nat in
  match pending st !! i with
  | None => st
  | Some p =>
      runCallback cfg totalTasks p f
        {| counter := counter st;
           pending := delete i (pending st);
           trace := trace st |}
  end.

(** A run of the event loop along a schedule. *)
Definition run (cfg : Config) (totalTasks : Z) (schedule : list Firing)
    (st : Ingest) : Ingest :=
  fold_left (fun s f => fire cfg totalTasks f s) schedule st.

(** A notification served to the end: the handler, then the callbacks
    along the schedule. *)
Definition serveNotification (cfg : Config) (recvTime : Z) (request : Request)
    (schedule : list Firing) : Completion Ingest :=
  '(totalTasks, st) ← notifyHandler cfg recvTime request;
  Normal (run cfg totalTasks schedule st).

(** [request] with the headers [value] the validator has left. *)
Definition withHeaders (request : Request) (value : gmap string string)
    : Request :=
  {| headers := value;
     params := params request;
     query := query request;
     payload := payload request |}.

(** The route [POST /notify]: header validation, which always calls
    [next()], then the notification served with the headers it has left. *)
Definition notifyRoute (cfg : Config) (attendedRequests : Z) (recvTime : Z)
    (request : Request) (schedule : list Firing) : Z * Completion Ingest :=
  let '(attended, value, _) :=
    validateNotifyHeaders cfg attendedRequests (headers request) in
  (attended, serveNotification cfg recvTime (withHeaders request value) schedule).

(** ** The retained attributes

    Step 1 of the ingestion algorithm, as one list: the attributes of all
    context elements, in order, without those whose value is not
    aggregatable. Both loops of the source walk this list; the lemmas below
    relate them to it. *)

Fixpoint retainedOfElement (cfg : Config) (recvTime : Z) (ce : JsValue)
    (attributes : list JsValue) : Completion (list TaskData) :=
  match attributes with
  | [] => Normal []
  | attr :: rest =>
      skip ← notAggregatable cfg attr;
      tl ← retainedOfElement cfg recvTime ce rest;
      Normal (if (skip : bool) then tl
              else {| contextElement := ce;
                      attribute := attr;
                      recvTime := recvTime |} :: tl)
  end.

Fixpoint retainedOfResponses (cfg : Config) (recvTime : Z)
    (contextResponses : list JsValue) : Completion (list TaskData) :=
  match contextResponses with
  | [] => Normal []
  | cr :: rest =>
      visit ← attributesToVisit cr;
      hd ← match visit with
           | Some (ce, attributes) => retainedOfElement cfg recvTime ce attributes
           | None => Normal []
           end;
      tl ← retainedOfResponses cfg recvTime rest;
      Normal (hd ++ tl)
  end.

(** The retained attributes of a notification. *)
Definition retainedAttributes (cfg : Config) (recvTime : Z) (request : Request)
    : Completion (list TaskData) :=
  contextResponses ← getProp (payload request) "contextResponses";
  retainedOfResponses cfg recvTime (arrayItems contextResponses).

(** A notification the handler passes on to [processAttributes]. *)
Definition wellFormed (request : Request) : Prop :=
  truthy (payload request) = true
  ∧ isArray (getMember (payload request) "contextResponses") = true.

(** The collection of a retained attribute. *)
Definition storeParams (request : Request) (data : TaskData) : CollectionParams :=
  {| cp_service := header request "fiware-service";
     cp_servicePath := header request "fiware-servicepath";
     cp_entityId := getMember (contextElement data) "id";
     cp_entityType := getMember (contextElement data) "type";
     cp_attrName := getMember (attribute data) "name" |}.

(** The two calls of [getCollection] made for a retained attribute. *)
Definition collectionCalls (request : Request) (data : TaskData) : list Effect :=
  [DbGetCollection (storeParams request data) (storeOptions false);
   DbGetCollection (storeParams request data) (storeOptions true)].

(** The two callbacks they leave in flight. *)
Definition collectionCallbacks (data : TaskData) : list Pending :=
  [RawCollectionCallback data; AggregatedCollectionCallback data].

(** The state after the subtasks of [l] have been dispatched from [st]. *)
Definition dispatched (request : Request) (l : list TaskData) (st : Ingest)
    : Ingest :=
  {| counter := counter st;
     pending := pending st ++ flat_map collectionCallbacks l;
     trace := trace st ++ flat_map (collectionCalls request) l |}.

(** Not [undefined] and not [null]: a value whose members can be read. *)
Definition readable (v : JsValue) : bool :=
  match v with JUndefined | JNull => false | _ => true end.

(** ** The callbacks still to come *)

(** The store mode writes raw documents. *)
Definition storesRaw (cfg : Config) : bool :=
  DataToStore_eqb (SHOULD_STORE cfg) ONLY_RAW
  || DataToStore_eqb (SHOULD_STORE cfg) BOTH.

(** The store mode writes aggregated documents. *)
Definition storesAggregated (cfg : Config) : bool :=
  DataToStore_eqb (SHOULD_STORE cfg) ONLY_AGGREGATED
  || DataToStore_eqb (SHOULD_STORE cfg) BOTH.

(** The increments of the counter a pending callback is certain to cause,
    itself or through the callback it registers. *)
Definition owed (cfg : Config) (p : Pending) : Z :=
  match p with
  | RawCollectionCallback _ => if storesRaw cfg then 1 else 0
  | AggregatedCollectionCallback _ => if storesAggregated cfg then 1 else 0
  | RawStoredCallback _ | AggregatedStoredCallback _ => 1
  end.

(** The callbacks a pending callback can still stand for: itself, and the
    store callback a collection callback may register. *)
Definition weight (p : Pending) : nat :=
  match p with
  | RawCollectionCallback _ | AggregatedCollectionCallback _ => 2
  | RawStoredCallback _ | AggregatedStoredCallback _ => 1
  end.

Definition owedAll (cfg : Config) (ps : list Pending) : Z :=
  foldr (fun p n => owed cfg p + n) 0 ps.

Definition weightAll (ps : list Pending) : nat :=
  foldr (fun p n => (weight p + n)%nat) 0%nat ps.

(** ** Completions, first errors and permitted calls *)

(** A firing completes a subtask when it is the callback of a store call,
    or the callback of [getCollection] called with an error. *)
Definition completes (p : Pending) (f : Firing) : bool :=
  match p with
  | RawStoredCallback _ | AggregatedStoredCallback _ => true
  | RawCollectionCallback _ | AggregatedCollectionCallback _ =>
      match err f with Some _ => true | None => false end
  end.

(** The first error among the firings of a schedule. *)
Fixpoint firstError (schedule : list Firing) : option Error :=
  match schedule with
  | [] => None
  | f :: rest =>
      match err f with
      | Some e => Some e
      | None => firstError rest
      end
  end.

(** A write appears in a trace only when the store mode has it. *)
Definition writeAllowed (cfg : Config) (e : Effect) : Prop :=
  match e with
  | DbStoreRawData _ => SHOULD_STORE cfg ≠ ONLY_AGGREGATED
  | DbStoreAggregatedData _ => SHOULD_STORE cfg ≠ ONLY_RAW
  | _ => True
  end.

(** A call of [getCollection] appears only for the attributes [l]. *)
Definition collectionFor (request : Request) (l : list TaskData) (e : Effect)
    : Prop :=
  match e with
  | DbGetCollection p o =>
      ∃ d, d ∈ l ∧ p = storeParams request d
           ∧ shouldCreate o = true ∧ shouldStoreHash o = true
           ∧ shouldTruncate o = true
  | _ => True
  end.

(** ** The dispatch rule and the query schema *)

(** The query schema of the data route (lines 670-679). *)
Definition isInteger (q : Q) : bool := Qnum q mod Z.pos (Qden q) =? 0.

(** [joi.number().integer().greater(-1).optional()]. *)
Definition joiCount (v : JsValue) : bool :=
  match v with
  | JUndefined => true
  | JNumber q => isInteger q && (- Z.pos (Qden q) <? Qnum q)
  | _ => false
  end.

(** [joi.string().valid(...).optional()]. *)
Definition joiOneOf (allowed : list string) (v : JsValue) : bool :=
  match v with
  | JUndefined => true
  | JString s => existsb (String.eqb s) allowed
  | _ => false
  end.

(** [joi.string().optional()]: joi's strings are not empty. *)
Definition joiString (v : JsValue) : bool :=
  match v with
  | JUndefined => true
  | JString s => negb (String.eqb s EmptyString)
  | _ => false
  end.

Definition queryValid (q : Query) : bool :=
  joiCount (lastN q) && joiCount (hLimit q) && joiCount (hOffset q)
  && joiOneOf ["max"; "min"; "sum"; "sum2"; "occur"] (aggrMethod q)
  && joiOneOf ["month"; "day"; "hour"; "minute"; "second"] (aggrPeriod q)
  && joiString (filetype q).

(** A query parameter is present. *)
Definition present (v : JsValue) : bool :=
  match v with JUndefined => false | _ => true end.

Inductive Route : Type := RawPath | AggregatedPath | QueryError.

(** [v] is the string [s]. *)
Definition isString (s : string) (v : JsValue) : bool :=
  match v with JString s' => String.eqb s' s | _ => false end.

(** The dispatch rule in the words of the specification (section 4.6). *)
Definition specDispatch (q : Query) : Route :=
  if present (lastN q)
     || (present (hLimit q) && present (hOffset q))
     || isString "csv" (filetype q)
  then RawPath
  else if present (aggrMethod q) && present (aggrPeriod q)
  then AggregatedPath
  else QueryError.

(** The same rule with [filetype] compared without regard to case. *)
Definition dispatchRule (q : Query) : Route :=
  if present (lastN q)
     || (present (hLimit q) && present (hOffset q))
     || String.eqb (lowerOf (filetype q)) "csv"
  then RawPath
  else if present (aggrMethod q) && present (aggrPeriod q)
  then AggregatedPath
  else QueryError.

(** What runs on each route. *)
Definition routeEffects (cfg : Config) (request : Request) (db : QueryDb)
    (r : Route) : list Effect :=
  match r with
  | RawPath =>
      getRawData request (header request (UNICA_CORRELATOR_HEADER cfg)) db
  | AggregatedPath =>
      getAggregatedData cfg request (header request (UNICA_CORRELATOR_HEADER cfg)) db
  | QueryError => [Reply (ReplyError queryParamsError)]
  end.

(** ** Retained values *)

(** Retained, in the words of the specification (section 4.5, step 1): the
    value is a string or a number and, when blank spaces are ignored, a
    string value is not blank. *)
Definition specRetained (cfg : Config) (value : JsValue) : bool :=
  match value with
  | JString s =>
      negb (IGNORE_BLANK_SPACES cfg && String.eqb (trim s) EmptyString)
  | JNumber _ => true
  | _ => false
  end.

(** The same with the empty string left out. *)
Definition retained (cfg : Config) (value : JsValue) : bool :=
  match value with
  | JString s =>
      negb (String.eqb s EmptyString)
      && negb (IGNORE_BLANK_SPACES cfg && String.eqb (trim s) EmptyString)
  | JNumber _ => true
  | _ => false
  end.

(** The subtasks of one attribute. *)
Definition task (ce attr : JsValue) (t : Z) : TaskData :=
  {| contextElement := ce; attribute := attr; recvTime := t |}.

(** The attribute passes the test of the loops (lines 493-496 and
    552-555): they do not [continue] on it. *)
Definition keeps (cfg : Config) (attr : JsValue) : bool :=
  match notAggregatable cfg attr with
  | Normal skip => negb skip
  | Throw _ => false
  end.

(** The attributes of one element of [contextResponses] that pass the
    test, in order, each with the data of its subtasks. *)
Definition keptOf (cfg : Config) (t : Z) (cr : JsValue) : list TaskData :=
  match attributesToVisit cr with
  | Normal (Some (ce, attributes)) =>
      map (fun attr => task ce attr t) (List.filter (keeps cfg) attributes)
  | _ => []
  end.

(** No element of [contextResponses], and no attribute of a context
    element the loops visit, is [null] or [undefined]: the loops read them
    all without throwing. *)
Definition allReadable (contextResponses : list JsValue) : Prop :=
  Forall
    (fun cr =>
       readable cr = true
       ∧ ∀ ce attributes,
           attributesToVisit cr = Normal (Some (ce, attributes)) →
           Forall (fun attr => readable attr = true) attributes)
    contextResponses.

(** ** Sample requests *)

Module Sample.

Definition config (mode : DataToStore) (ignoreBlankSpaces : bool) : Config :=
  {| SHOULD_STORE := mode;
     IGNORE_BLANK_SPACES := ignoreBlankSpaces;
     FILTER_OUT_EMPTY := true;
     UNICA_CORRELATOR_HEADER := "unica-correlator";
     DEFAULT_SERVICE := "orion";
     DEFAULT_SERVICE_PATH := "/" |}.

Definition tenantHeaders : gmap string string :=
  <["fiware-service" := "orion"]> (<["fiware-servicepath" := "/"]> ∅).

Definition noQuery : Query :=
  {| lastN := JUndefined; hLimit := JUndefined; hOffset := JUndefined;
     aggrMethod := JUndefined; aggrPeriod := JUndefined;
     dateFrom := None; dateTo := None; filetype := JUndefined |}.

Definition roomParams : Params :=
  {| entityType := "Room"; entityId := "room1"; attrName := "t" |}.

(** A [GET] on the data route. *)
Definition get (hs : gmap string string) (q : Query) : Request :=
  {| headers := hs; params := roomParams; query := q; payload := JNull |}.

(** An attribute of a notification. *)
Definition attr (value : JsValue) : JsValue :=
  JObject [("name", JString "t"); ("type", JString "float"); ("value", value)].

(** A context element. *)
Definition element (attributes : list JsValue) : JsValue :=
  JObject [("id", JString "room1");
           ("type", JString "Room");
           ("isPattern", JString "false");
           ("attributes", JArray attributes)].

(** A notification of one context element. *)
Definition notification (attributes : list JsValue) : JsValue :=
  JObject
    [("contextResponses",
      JArray
        [JObject
           [("contextElement", element attributes);
            ("statusCode",
             JObject [("code", JString "200"); ("reasonPhrase", JString "OK")])]])].

(** A [POST /notify]. *)
Definition post (body : JsValue) : Request :=
  {| headers := tenantHeaders; params := roomParams; query := noQuery;
     payload := body |}.

Definition absent : Error := DbError "collection not found".
Definition handle : Collection := {| collectionName := "sth_/_room1_Room_t" |}.

(** The driver finds no collection. *)
Definition noCollection : QueryDb :=
  {| qd_collectionErr := Some absent; qd_collection := handle;
     qd_dataErr := None; qd_result := ResultNone; qd_buckets := None;
     qd_refusal := None |}.

(** The driver finds the collection and the documents [docs]. *)
Definition found (docs : list JsValue) : QueryDb :=
  {| qd_collectionErr := None; qd_collection := handle;
     qd_dataErr := None; qd_result := ResultDocs docs; qd_buckets := Some docs;
     qd_refusal := None |}.

(** The [i]-th pending callback is fired with success. *)
Definition ok (i : nat) : Firing :=
  {| which := i; err := None; collection := handle |}.

(** The [i]-th pending callback is fired with the error [reason]. *)
Definition ko (i : nat) (reason : string) : Firing :=
  {| which := i; err := Some (DbError reason); collection := handle |}.

End Sample.

(** ** The attended requests *)

(** What [getKPIs()] returns. *)
Record KPIs : Type := { kpi_attendedRequests : Z }.

(** [getKPIs()] (lines 762-766), reading the module's [attendedRequests]. *)
Definition getKPIs (attendedRequests : Z) : KPIs :=
  {| kpi_attendedRequests := attendedRequests |}.

(** [resetKPIs()] (lines 771-773): the new value of [attendedRequests]. *)
Definition resetKPIs (attendedRequests : Z) : Z := 0.

(** A request that has reached its route: the data route or [/notify],
    with the headers handed to the validator, or [/version], which has no
    validator. *)
Inductive Incoming : Type :=
| ToData (value : gmap string string)
| ToNotify (value : gmap string string)
| ToVersion.

(** [attendedRequests] after the request. *)
Definition attend (cfg : Config) (attendedRequests : Z) (r : Incoming) : Z :=
  match r with
  | ToData value => fst (validateDataHeaders attendedRequests value)
  | ToNotify value => fst (fst (validateNotifyHeaders cfg attendedRequests value))
  | ToVersion => attendedRequests
  end.

(** [attendedRequests] after the requests, in order. *)
Definition attendAll (cfg : Config) (attendedRequests : Z)
    (requests : list Incoming) : Z :=
  fold_left (attend cfg) requests attendedRequests.

Definition isVersion (r : Incoming) : bool :=
  match r with ToVersion => true | _ => false end.

(** What the validator of [/notify] leaves in a header. *)
Definition orDefault (value : gmap string string) (name fallback : string)
    : string :=
  match value !! name with
  | Some s => if String.eqb s EmptyString then fallback else s
  | None => fallback
  end.


(** ** Counting calls and callbacks *)

(** The number of elements of [l] that satisfy [f]. *)
Definition tally {A} (f : A → bool) (l : list A) : nat :=
  List.length (List.filter f l).

Definition isRawWrite (e : Effect) : bool :=
  match e with DbStoreRawData _ => true | _ => false end.

Definition isAggregatedWrite (e : Effect) : bool :=
  match e with DbStoreAggregatedData _ => true | _ => false end.

Definition awaitsRawCollection (p : Pending) : bool :=
  match p with RawCollectionCallback _ => true | _ => false end.

Definition awaitsAggregatedCollection (p : Pending) : bool :=
  match p with AggregatedCollectionCallback _ => true | _ => false end.

(** The [data] a pending callback has captured. *)
Definition dataOf (p : Pending) : TaskData :=
  match p with
  | RawCollectionCallback d | RawStoredCallback d
  | AggregatedCollectionCallback d | AggregatedStoredCallback d => d
  end.

(** A call a query may make: [getCollection] without creating, hashing or
    truncating, a read of the collection the driver has found, a reply, or
    something set on the response. *)
Definition queryCall (db : QueryDb) (e : Effect) : Prop :=
  match e with
  | DbGetCollection _ o =>
      shouldCreate o = false ∧ shouldStoreHash o = false
      ∧ shouldTruncate o = false
  | DbGetRawData a =>
      qd_collectionErr db = None ∧ rd_collection a = qd_collection db
  | DbGetAggregatedData a =>
      qd_collectionErr db = None ∧ ad_collection a = qd_collection db
  | DbStoreRawData _ | DbStoreAggregatedData _ | Next _ => False
  | Reply _ | ReplyFile _ | ResponseHeader _ _ | ResponseOnceFinishUnlink _
  | Raise _ => True
  end.

(** A write made for one of the attributes [l], at its receive time and
    into some collection. *)
Definition writeFor (l : list TaskData) (e : Effect) : Prop :=
  match e with
  | DbStoreRawData a | DbStoreAggregatedData a =>
      ∃ d c, d ∈ l ∧ a = storeArgs d c
  | _ => True
  end.

(** An element of [contextResponses] or of an [attributes] array the
    loops cannot read a member of, in an array of such elements. *)
Definition unreadableIn (contextResponses : list JsValue) : Prop :=
  Exists
    (fun cr =>
       readable cr = false
       ∨ ∃ ce attributes,
           attributesToVisit cr = Normal (Some (ce, attributes))
           ∧ Exists (fun attr => readable attr = false) attributes)
    contextResponses.

(** * Properties *)

(** ** Reading members *)

Lemma getProp_readable v k :
  readable v = true → getProp v k = Normal (getMember v k).
Proof. by destruct v. Qed.

Lemma getProp_Normal v k w : getProp v k = Normal w → readable v = true.
Proof. by destruct v. Qed.

Lemma truthy_readable v : truthy v = true → readable v = true.
Proof. by destruct v. Qed.

Lemma notAggregatable_Normal cfg attr b :
  notAggregatable cfg attr = Normal b → readable attr = true.
Proof. by destruct attr. Qed.

Lemma storeCollection_readable request data :
  readable (contextElement data) = true →
  readable (attribute data) = true →
  storeCollection request data = Normal (storeParams request data).
Proof.
  intros Hce Hattr. unfold storeCollection.
  rewrite !(getProp_readable _ _ Hce), (getProp_readable _ _ Hattr). done.
Qed.

Lemma dispatched_nil request st : dispatched request [] st = st.
Proof. destruct st. unfold dispatched. simpl. by rewrite !app_nil_r. Qed.

Lemma dispatched_cons request d l st :
  dispatched request (d :: l) st
  = dispatched request l
      (register (AggregatedCollectionCallback d)
         (emit (DbGetCollection (storeParams request d) (storeOptions true))
            (register (RawCollectionCallback d)
               (emit (DbGetCollection (storeParams request d) (storeOptions false))
                  st)))).
Proof.
  unfold dispatched, register, emit. simpl. f_equal; by rewrite <- !app_assoc.
Qed.

Lemma dispatched_app request l1 l2 st :
  dispatched request (l1 ++ l2) st = dispatched request l2 (dispatched request l1 st).
Proof.
  unfold dispatched. simpl. rewrite !flat_map_app, !app_assoc. done.
Qed.

(** The inner counting loop counts the retained attributes. *)
Lemma countAttributes_retained cfg t ce attributes n :
  countAttributes cfg attributes n
  = (l ← retainedOfElement cfg t ce attributes;
     Normal (n + Z.of_nat (List.length l))).
Proof.
  revert n. induction attributes as [|attr rest IH]; intros n; simpl.
  - f_equal. lia.
  - destruct (notAggregatable cfg attr) as [skip|e]; simpl; [|done].
    rewrite IH. destruct (retainedOfElement cfg t ce rest) as [l|e]; simpl; [|done].
    destruct skip; simpl; f_equal; lia.
Qed.

(** So does the outer one. *)
Lemma countContextResponses_retained cfg t contextResponses n :
  countContextResponses cfg contextResponses n
  = (l ← retainedOfResponses cfg t contextResponses;
     Normal (n + Z.of_nat (List.length l))).
Proof.
  revert n. induction contextResponses as [|cr rest IH]; intros n; simpl.
  - f_equal. lia.
  - destruct (attributesToVisit cr) as [[[ce attributes]|]|e]; simpl; [| |done].
    + rewrite (countAttributes_retained cfg t ce).
      destruct (retainedOfElement cfg t ce attributes) as [hd|e]; simpl; [|done].
      rewrite IH. destruct (retainedOfResponses cfg t rest) as [tl|e]; simpl; [|done].
      f_equal. rewrite length_app. lia.
    + rewrite IH. destruct (retainedOfResponses cfg t rest) as [tl|e]; simpl; [|done].
      done.
Qed.

(** The inner dispatching loop dispatches the retained attributes. *)
Lemma processContextElement_retained cfg request t ce attributes st :
  readable ce = true →
  processContextElement cfg request t ce attributes st
  = (l ← retainedOfElement cfg t ce attributes;
     Normal (dispatched request l st)).
Proof.
  intros Hce. revert st. induction attributes as [|attr rest IH]; intros st; simpl.
  - by rewrite dispatched_nil.
  - destruct (notAggregatable cfg attr) as [skip|e] eqn:Hskip; simpl; [|done].
    destruct skip.
    + rewrite IH. by destruct (retainedOfElement cfg t ce rest).
    + apply notAggregatable_Normal in Hskip.
      unfold storeRawData, storeAggregatedData.
      rewrite storeCollection_readable by done. simpl.
      rewrite IH. destruct (retainedOfElement cfg t ce rest) as [l|e]; simpl; [|done].
      by rewrite dispatched_cons.
Qed.

Lemma attributesToVisit_readable cr ce attributes :
  attributesToVisit cr = Normal (Some (ce, attributes)) → readable ce = true.
Proof.
  unfold attributesToVisit. destruct (getProp cr "contextElement") as [v|e]; simpl; [|done].
  destruct (truthy v) eqn:Hv; [|done].
  destruct (getProp v "attributes") as [a|e]; simpl; [|done].
  destruct (truthy a && isArray a); [|done].
  intros [= <- _]. by apply truthy_readable.
Qed.

(** So does the outer one. *)
Lemma processContextResponses_retained cfg request t contextResponses st :
  processContextResponses cfg request t contextResponses st
  = (l ← retainedOfResponses cfg t contextResponses;
     Normal (dispatched request l st)).
Proof.
  revert st. induction contextResponses as [|cr rest IH]; intros st; simpl.
  - by rewrite dispatched_nil.
  - destruct (attributesToVisit cr) as [[[ce attributes]|]|e] eqn:Hvisit; simpl; [| |done].
    + rewrite processContextElement_retained
        by (eapply attributesToVisit_readable; exact Hvisit).
      destruct (retainedOfElement cfg t ce attributes) as [hd|e]; simpl; [|done].
      rewrite IH. destruct (retainedOfResponses cfg t rest) as [tl|e]; simpl; [|done].
      by rewrite dispatched_app.
    + rewrite IH. by destruct (retainedOfResponses cfg t rest).
Qed.

(** ** The event loop of one notification *)

Section EventLoop.

Variable cfg : Config.
Variable totalTasks : Z.

Lemma owedAll_app ps qs : owedAll cfg (ps ++ qs) = owedAll cfg ps + owedAll cfg qs.
Proof. induction ps as [|p ps IH]; simpl; [done|]. rewrite IH. lia. Qed.

Lemma weightAll_app ps qs : weightAll (ps ++ qs) = (weightAll ps + weightAll qs)%nat.
Proof. induction ps as [|p ps IH]; simpl; [done|]. rewrite IH. lia. Qed.

Lemma owedAll_delete ps i p :
  ps !! i = Some p → owedAll cfg ps = owed cfg p + owedAll cfg (delete i ps).
Proof.
  revert i. induction ps as [|q ps IH]; intros [|i] H; simplify_eq/=; [done|].
  rewrite (IH i H). lia.
Qed.

Lemma weightAll_delete ps i p :
  ps !! i = Some p → weightAll ps = (weight p + weightAll (delete i ps))%nat.
Proof.
  revert i. induction ps as [|q ps IH]; intros [|i] H; simplify_eq/=; [done|].
  rewrite (IH i H). lia.
Qed.

Lemma repliesOf_app t1 t2 : repliesOf (t1 ++ t2) = repliesOf t1 ++ repliesOf t2.
Proof. apply List.filter_app. Qed.

Lemma repliesOf_replyErr e : repliesOf [replyErr e] = [replyErr e].
Proof. by destruct e. Qed.

(** What [countAndReply] does to the counter and to the replies. *)
Lemma countAndReply_spec e st :
  counter (countAndReply totalTasks e st) = counter st + 1
  ∧ pending (countAndReply totalTasks e st) = pending st
  ∧ trace (countAndReply totalTasks e st)
    = trace st ++ (if counter st + 1 =? totalTasks then [replyErr e] else []).
Proof.
  unfold countAndReply. simpl. destruct (counter st + 1 =? totalTasks); simpl.
  - done.
  - by rewrite app_nil_r.
Qed.

(** A firing picks a callback whenever one is pending. *)
Lemma fire_pick (f : Firing) (st : Ingest) :
  pending st ≠ [] →
  ∃ p, pending st !! (which f mod List.length (pending st))%nat = Some p.
Proof.
  intros Hne. apply lookup_lt_is_Some_2.
  apply Nat.mod_upper_bound. destruct (pending st); simpl; [done|lia].
Qed.

Lemma fire_idle f st : pending st = [] → fire cfg totalTasks f st = st.
Proof. intros H. unfold fire. rewrite H. simpl. done. Qed.

(** One turn of the loop, seen from the counter: either it is left alone
    and no reply is made, or it is incremented and the reply is made when
    it reaches [totalTasks], with the [err] of the callback that ran. *)
Lemma fire_counter f st :
  (counter (fire cfg totalTasks f st) = counter st
   ∧ repliesOf (trace (fire cfg totalTasks f st)) = repliesOf (trace st))
  ∨ (counter (fire cfg totalTasks f st) = counter st + 1
     ∧ repliesOf (trace (fire cfg totalTasks f st))
       = repliesOf (trace st)
         ++ (if counter st + 1 =? totalTasks then [replyErr (err f)] else [])).
Proof.
  unfold fire.
  destruct (pending st !! (which f mod List.length (pending st))%nat) as [p|];
    [|by left].
  set (st' := {| counter := counter st; pending := _; trace := trace st |}).
  assert (Hinc : ∀ e, e = err f →
    counter (countAndReply totalTasks e st') = counter st + 1
    ∧ repliesOf (trace (countAndReply totalTasks e st'))
      = repliesOf (trace st)
        ++ (if counter st + 1 =? totalTasks then [replyErr (err f)] else [])).
  { intros e ->. destruct (countAndReply_spec (err f) st') as (Hc & _ & Ht).
    split; [done|]. rewrite Ht, repliesOf_app. simpl counter. simpl trace.
    destruct (counter st + 1 =? totalTasks); [by rewrite repliesOf_replyErr|done]. }
  destruct p as [data|data|data|data]; simpl.
  - unfold storeRawData_onCollection.
    destruct (err f) as [e|] eqn:He.
    + right. apply Hinc. done.
    + left. destruct (_ || _); simpl; [|done].
      split; [done|]. rewrite repliesOf_app. simpl. by rewrite app_nil_r.
  - right. by apply Hinc.
  - unfold storeAggregatedData_onCollection.
    destruct (err f) as [e|] eqn:He.
    + right. apply Hinc. done.
    + left. destruct (_ || _); simpl; [|done].
      split; [done|]. rewrite repliesOf_app. simpl. by rewrite app_nil_r.
  - right. by apply Hinc.
Qed.

(** One turn of the loop, seen from the callbacks in flight: the counter
    and what is owed never fall below what they were together, and the
    weight of what is pending goes down. *)
Lemma fire_progress f st :
  pending st ≠ [] →
  counter st + owedAll cfg (pending st)
  ≤ counter (fire cfg totalTasks f st) + owedAll cfg (pending (fire cfg totalTasks f st))
  ∧ (weightAll (pending (fire cfg totalTasks f st)) < weightAll (pending st))%nat.
Proof.
  intros Hne. destruct (fire_pick f st Hne) as [p Hp].
  unfold fire. rewrite Hp.
  rewrite (owedAll_delete _ _ _ Hp), (weightAll_delete _ _ _ Hp).
  set (i := (which f mod List.length (pending st))%nat).
  set (st' := {| counter := counter st; pending := delete i (pending st); trace := trace st |}).
  assert (Hinc : ∀ e,
    counter st + (1 + owedAll cfg (delete i (pending st)))
    ≤ counter (countAndReply totalTasks e st')
      + owedAll cfg (pending (countAndReply totalTasks e st'))
    ∧ (weightAll (pending (countAndReply totalTasks e st'))
       < 1 + weightAll (delete i (pending st)))%nat).
  { intros e. destruct (countAndReply_spec e st') as (Hc & Hp' & _).
    rewrite Hc, Hp'. simpl. lia. }
  destruct p as [data|data|data|data]; simpl.
  - unfold storeRawData_onCollection. fold (storesRaw cfg).
    destruct (err f) as [e|].
    + destruct (Hinc (Some e)) as [H1 H2]. destruct (storesRaw cfg); lia.
    + destruct (storesRaw cfg); simpl.
      * rewrite owedAll_app, weightAll_app. simpl. lia.
      * lia.
  - apply Hinc.
  - unfold storeAggregatedData_onCollection. fold (storesAggregated cfg).
    destruct (err f) as [e|].
    + destruct (Hinc (Some e)) as [H1 H2]. destruct (storesAggregated cfg); lia.
    + destruct (storesAggregated cfg); simpl.
      * rewrite owedAll_app, weightAll_app. simpl. lia.
      * lia.
  - apply Hinc.
Qed.

End EventLoop.

Section Runs.

Variable cfg : Config.
Variable totalTasks : Z.

Lemma run_app s1 s2 st : run cfg totalTasks (s1 ++ s2) st = run cfg totalTasks s2 (run cfg totalTasks s1 st).
Proof. apply fold_left_app. Qed.

Lemma run_cons f s st : run cfg totalTasks (f :: s) st = run cfg totalTasks s (fire cfg totalTasks f st).
Proof. done. Qed.

(** Once the counter has reached [totalTasks], no reply is made any more. *)
Lemma run_after_reply schedule st :
  totalTasks ≤ counter st →
  totalTasks ≤ counter (run cfg totalTasks schedule st)
  ∧ repliesOf (trace (run cfg totalTasks schedule st)) = repliesOf (trace st).
Proof.
  revert st. induction schedule as [|f s IH]; intros st Hc; [done|].
  rewrite run_cons.
  destruct (fire_counter cfg totalTasks f st) as [[Hk Hr]|[Hk Hr]].
  - destruct (IH (fire cfg totalTasks f st)) as [H1 H2]; [lia|]. by rewrite H2, Hr.
  - destruct (IH (fire cfg totalTasks f st)) as [H1 H2]; [lia|]. split; [done|].
    rewrite H2, Hr. destruct (Z.eqb_spec (counter st + 1) totalTasks); [lia|].
    by rewrite app_nil_r.
Qed.

(** Until then none has been made; and the one that is made carries the
    [err] of the firing that takes the counter to [totalTasks]. *)
Lemma run_reply schedule st :
  repliesOf (trace st) = [] →
  counter st < totalTasks →
  (repliesOf (trace (run cfg totalTasks schedule st)) = []
   ∧ counter (run cfg totalTasks schedule st) < totalTasks)
  ∨ (∃ pre f post,
       schedule = pre ++ f :: post
       ∧ counter (run cfg totalTasks pre st) = totalTasks - 1
       ∧ counter (run cfg totalTasks (pre ++ [f]) st) = totalTasks
       ∧ repliesOf (trace (run cfg totalTasks schedule st)) = [replyErr (err f)]
       ∧ totalTasks ≤ counter (run cfg totalTasks schedule st)).
Proof.
  revert st. induction schedule as [|f s IH]; intros st Hr Hc; [by left|].
  rewrite run_cons.
  destruct (fire_counter cfg totalTasks f st) as [[Hk Hr']|[Hk Hr']].
  - destruct (IH (fire cfg totalTasks f st)) as [H|(pre & g & post & -> & H1 & H2 & H3 & H4)];
      [congruence|lia|by left|].
    right. exists (f :: pre), g, post. done.
  - destruct (Z.eqb_spec (counter st + 1) totalTasks) as [Heq|Hne].
    + right. exists [], f, s. simpl.
      destruct (run_after_reply s (fire cfg totalTasks f st)) as [H1 H2]; [lia|].
      rewrite H2, Hr', Hr. split_and!; [done|lia|lia|done|done].
    + destruct (IH (fire cfg totalTasks f st)) as [H|(pre & g & post & -> & H1 & H2 & H3 & H4)];
        [by rewrite Hr', Hr|lia|by left|].
      right. exists (f :: pre), g, post. done.
Qed.

(** What is owed is paid or still owed. *)
Lemma run_owed schedule st :
  counter st + owedAll cfg (pending st)
  ≤ counter (run cfg totalTasks schedule st) + owedAll cfg (pending (run cfg totalTasks schedule st)).
Proof.
  revert st. induction schedule as [|f s IH]; intros st; [done|].
  rewrite run_cons. etrans; [|apply IH].
  destruct (pending st) as [|p ps] eqn:Hp.
  - rewrite fire_idle by done. by rewrite Hp.
  - rewrite <- Hp. apply fire_progress. by rewrite Hp.
Qed.

(** A schedule as long as the weight of what is pending fires everything. *)
Lemma run_drains schedule st :
  (weightAll (pending st) ≤ List.length schedule)%nat →
  pending (run cfg totalTasks schedule st) = [].
Proof.
  revert st. induction schedule as [|f s IH]; intros st Hw.
  - simpl in *. destruct (pending st) as [|[]]; simpl in *; [done|exfalso; lia..].
  - rewrite run_cons. apply IH.
    destruct (pending st) as [|p ps] eqn:Hp.
    + rewrite fire_idle by done. rewrite Hp. simpl. lia.
    + destruct (fire_progress cfg totalTasks f st) as [_ H]; [by rewrite Hp|].
      rewrite Hp in H. simpl in Hw, H. lia.
Qed.

(** Nothing pending stays nothing pending. *)
Lemma run_idle schedule st : pending st = [] → run cfg totalTasks schedule st = st.
Proof.
  intros H. induction schedule as [|f s IH]; [done|].
  rewrite run_cons, fire_idle; done.
Qed.

End Runs.

(** *** The state [processAttributes] leaves *)

Lemma totalTasksOf_owed cfg l :
  owedAll cfg (flat_map collectionCallbacks l)
  = totalTasksOf cfg (Z.of_nat (List.length l)).
Proof.
  unfold totalTasksOf. induction l as [|d l IH]; simpl.
  - by destruct (DataToStore_eqb _ _).
  - rewrite IH. unfold storesRaw, storesAggregated.
    destruct (SHOULD_STORE cfg); simpl; lia.
Qed.

Lemma weightAll_callbacks l :
  weightAll (flat_map collectionCallbacks l) = (4 * List.length l)%nat.
Proof. induction l as [|d l IH]; simpl; [done|]. rewrite IH. lia. Qed.

Lemma repliesOf_collectionCalls request l :
  repliesOf (flat_map (collectionCalls request) l) = [].
Proof. induction l as [|d l IH]; simpl; done. Qed.

Lemma totalTasksOf_pos cfg n : 0 < n → 0 < totalTasksOf cfg n.
Proof. unfold totalTasksOf. destruct (DataToStore_eqb _ _); lia. Qed.

Lemma wellFormed_getProp request :
  wellFormed request →
  getProp (payload request) "contextResponses"
  = Normal (getMember (payload request) "contextResponses").
Proof. intros [H _]. by apply getProp_readable, truthy_readable. Qed.

Lemma wellFormed_handler cfg t request :
  wellFormed request →
  notifyHandler cfg t request = processAttributes cfg t request.
Proof.
  intros [H1 H2]. unfold notifyHandler. rewrite H1, H2.
  destruct (getMember _ _); done.
Qed.

(** What [processAttributes] does with the retained attributes [l] of a
    notification: with none it replies with the validation error; with
    some it dispatches their subtasks and replies nothing yet. *)
Lemma processAttributes_retained cfg t request l :
  wellFormed request →
  retainedAttributes cfg t request = Normal l →
  processAttributes cfg t request
  = Normal (totalTasksOf cfg (Z.of_nat (List.length l)),
            match l with
            | [] => emit (Reply (ReplyError noAttributesError)) initialIngest
            | _ => dispatched request l initialIngest
            end).
Proof.
  intros Hwf. unfold retainedAttributes, processAttributes, getTotalAttributes.
  rewrite (wellFormed_getProp _ Hwf). simpl.
  set (crs := arrayItems _).
  rewrite (countContextResponses_retained cfg t).
  rewrite processContextResponses_retained.
  intros ->. simpl.
  destruct l as [|d l]; simpl; [done|].
  destruct (Z.eqb_spec (Z.pos (Pos.of_succ_nat (List.length l))) 0); [lia|done].
Qed.

Lemma joiCount_present v : joiCount v = true → truthy v || isZero v = present v.
Proof. destruct v; try done. simpl. by destruct (Qnum q =? 0). Qed.

Lemma joiOneOf_present allowed v :
  joiOneOf allowed v = true →
  forallb (fun s => negb (String.eqb s EmptyString)) allowed = true →
  truthy v = present v.
Proof.
  destruct v; try done. simpl. intros [x [Hin Hx]]%existsb_exists Hall.
  apply String.eqb_eq in Hx as ->.
  rewrite forallb_forall in Hall. by apply Hall.
Qed.

Lemma joiString_csv v :
  joiString v = true →
  truthy v && String.eqb (lowerOf v) "csv" = String.eqb (lowerOf v) "csv".
Proof. destruct v; try done. simpl. by intros ->. Qed.

(** On a validated query the handler follows the dispatch rule. *)
Lemma dataHandler_dispatch cfg request db :
  queryValid (query request) = true →
  dataHandler cfg request db
  = routeEffects cfg request db (dispatchRule (query request)).
Proof.
  unfold queryValid. rewrite !andb_true_iff.
  intros [[[[[HlastN HhLimit] HhOffset] Hmethod] Hperiod] Hfiletype].
  unfold dataHandler, dispatchRule.
  rewrite (joiCount_present _ HlastN), (joiCount_present _ HhLimit),
    (joiCount_present _ HhOffset), (joiString_csv _ Hfiletype),
    (joiOneOf_present _ _ Hmethod eq_refl), (joiOneOf_present _ _ Hperiod eq_refl).
  destruct (_ || _ || _); [done|]. by destruct (_ && _).
Qed.

(** The three routes leave different traces. *)
Lemma routeEffects_inj cfg request db r1 r2 :
  routeEffects cfg request db r1 = routeEffects cfg request db r2 → r1 = r2.
Proof.
  destruct r1, r2; simpl; unfold getRawData, getAggregatedData, queryOptions;
    intros H; try done; inversion H.
Qed.

(** C2, as amended. For every validated [GET] data query the dispatch
    rule is applied in order, first match winning: with [lastN] present
    (0 included), or [hLimit] and [hOffset] both present, or [filetype]
    equal to [csv] without regard to letter case, exactly the raw path
    runs; otherwise with [aggrMethod] and [aggrPeriod] both present exactly
    the aggregated path runs; otherwise a 400 validation error is returned
    whose keys are [lastN], [hLimit], [hOffset], [filetype], [aggrMethod],
    [aggrPeriod]; the three outcomes exclude one another, and the error is
    returned if and only if neither path matches. *)
Theorem C2_dispatch_rule cfg request db :
  queryValid (query request) = true →
  dataHandler cfg request db
  = routeEffects cfg request db (dispatchRule (query request))
  ∧ (∀ r, dataHandler cfg request db = routeEffects cfg request db r
          ↔ dispatchRule (query request) = r)
  ∧ statusOfError queryParamsError = 400
  ∧ (∃ message,
       queryParamsError
       = Boom 400 message
           (Some {| source := "query";
                    keys := ["lastN"; "hLimit"; "hOffset"; "filetype";
                             "aggrMethod"; "aggrPeriod"] |})).
Proof.
  intros Hvalid. pose proof (dataHandler_dispatch cfg request db Hvalid) as Heq.
  split_and!; [done| |done|by eexists].
  intros r. rewrite Heq. split.
  - apply routeEffects_inj.
  - by intros ->.
Qed.

(** A validated query on which the rule is exercised: [filetype=csv] with
    both aggregation parameters goes to the raw path. *)
Lemma C2_dispatch_rule_witness :
  let request :=
    Sample.get Sample.tenantHeaders
      {| lastN := JUndefined; hLimit := JUndefined; hOffset := JUndefined;
         aggrMethod := JString "sum"; aggrPeriod := JString "hour";
         dateFrom := None; dateTo := None; filetype := JString "csv" |} in
  queryValid (query request) = true
  ∧ dataHandler (Sample.config BOTH true) request Sample.noCollection
    = routeEffects (Sample.config BOTH true) request Sample.noCollection RawPath.
Proof.
  split; [reflexivity|].
  destruct (C2_dispatch_rule (Sample.config BOTH true)
              (Sample.get Sample.tenantHeaders
                 {| lastN := JUndefined; hLimit := JUndefined; hOffset := JUndefined;
                    aggrMethod := JString "sum"; aggrPeriod := JString "hour";
                    dateFrom := None; dateTo := None; filetype := JString "csv" |})
              Sample.noCollection eq_refl) as [H _].
  exact H.
Defined.

(** The rule as the specification words it fails on [filetype=CSV]: with
    both aggregation parameters given, the words send the query to the
    aggregated path, the handler to the raw one. *)
Lemma C2_counterexample :
  let request :=
    Sample.get Sample.tenantHeaders
      {| lastN := JUndefined; hLimit := JUndefined; hOffset := JUndefined;
         aggrMethod := JString "sum"; aggrPeriod := JString "hour";
         dateFrom := None; dateTo := None; filetype := JString "CSV" |} in
  let cfg := Sample.config BOTH true in
  queryValid (query request) = true
  ∧ specDispatch (query request) = AggregatedPath
  ∧ dataHandler cfg request (Sample.found [])
    = routeEffects cfg request (Sample.found []) RawPath
  ∧ dataHandler cfg request (Sample.found [])
    ≠ routeEffects cfg request (Sample.found []) (specDispatch (query request)).
Proof.
  split_and!; [reflexivity..|].
  intros H. apply (routeEffects_inj _ _ _ RawPath AggregatedPath) in H.
  discriminate H.
Qed.

(** ** The empty envelope *)

(** C6. For every raw or aggregated [GET] query against a namespace whose
    collection does not exist (the driver's [getCollection] calls back with
    an error), the server replies once, with status 200 and the response
    envelope carrying an empty [values] list, and never with an error. *)
Theorem C6_absent_collection_empty_200 cfg request db absent :
  qd_collectionErr db = Some absent →
  let correlator := header request (UNICA_CORRELATOR_HEADER cfg) in
  let envelope :=
    getNGSIPayload (entityId (params request)) (entityType (params request))
      (attrName (params request)) (JArray []) in
  repliesOf (getRawData request correlator db) = [Reply (ReplyPayload envelope)]
  ∧ responseStatus (getRawData request correlator db) = Some 200
  ∧ repliesOf (getAggregatedData cfg request correlator db)
    = [Reply (ReplyPayload envelope)]
  ∧ responseStatus (getAggregatedData cfg request correlator db) = Some 200
  ∧ (∀ r, r ≠ QueryError →
          responseStatus (routeEffects cfg request db r) = Some 200).
Proof.
  intros Habsent. simpl.
  unfold getRawData, getAggregatedData, getRawData_onCollection,
    getAggregatedData_onCollection, responseStatus.
  rewrite Habsent. simpl. split_and!; try done.
  intros [] Hr; try done; simpl;
    unfold getRawData, getAggregatedData, getRawData_onCollection,
      getAggregatedData_onCollection, responseStatus;
    by rewrite Habsent.
Qed.

Lemma C6_absent_collection_empty_200_witness :
  let request := Sample.get Sample.tenantHeaders Sample.noQuery in
  responseStatus
    (getRawData request (header request "unica-correlator") Sample.noCollection)
  = Some 200.
Proof.
  apply (C6_absent_collection_empty_200 (Sample.config BOTH true)
           (Sample.get Sample.tenantHeaders Sample.noQuery)
           Sample.noCollection Sample.absent eq_refl).
Defined.

(** ** The correlator header *)

(** Where the driver finds the collection and reads it, the correlator is
    echoed on every reply of the raw path: data and no data. *)
Lemma getRawData_echoes request s db :
  s ≠ EmptyString →
  qd_collectionErr db = None →
  qd_dataErr db = None →
  responseHeaders (getRawData request (JString s) db)
  = match qd_result db with
    | ResultFile path =>
        if String.eqb path EmptyString then [("Unica-Correlator", s)]
        else [("Content-Disposition",
               ("attachment; filename=" ++ fileNameOf path)%string);
              ("Unica-Correlator", s)]
    | _ => [("Unica-Correlator", s)]
    end.
Proof.
  intros Hs Hfound Hread. unfold getRawData, getRawData_onCollection.
  rewrite Hfound, Hread.
  unfold getRawData_onData, echoCorrelatorAfter, echoCorrelator. simpl.
  apply String.eqb_neq in Hs. rewrite Hs. simpl.
  destruct (qd_result db) as [|docs| |path]; simpl; try done.
  - by destruct docs.
  - destruct path; done.
Qed.

(** And on every such reply of the aggregated path. *)
Lemma getAggregatedData_echoes cfg request s db :
  s ≠ EmptyString →
  qd_collectionErr db = None →
  qd_dataErr db = None →
  responseHeaders (getAggregatedData cfg request (JString s) db)
  = [("Unica-Correlator", s)].
Proof.
  intros Hs Hfound Hread. unfold getAggregatedData, getAggregatedData_onCollection.
  rewrite Hfound, Hread.
  unfold getAggregatedData_onData, echoCorrelatorAfter, echoCorrelator. simpl.
  apply String.eqb_neq in Hs. rewrite Hs. simpl.
  by destruct (qd_buckets db) as [[|bucket buckets]|].
Qed.

(** C8, at the failing input. A [lastN=1] query that supplies the
    correlator [abc] against a namespace whose collection is absent is
    answered with the empty envelope and no [Unica-Correlator] header;
    the same query against an existing collection has the header. *)
Theorem C8_absent_collection_drops_correlator :
  let cfg := Sample.config BOTH true in
  let request :=
    Sample.get (<["unica-correlator" := "abc"]> Sample.tenantHeaders)
      {| lastN := JNumber (inject_Z 1); hLimit := JUndefined; hOffset := JUndefined;
         aggrMethod := JUndefined; aggrPeriod := JUndefined;
         dateFrom := None; dateTo := None; filetype := JUndefined |} in
  header request (UNICA_CORRELATOR_HEADER cfg) = JString "abc"
  ∧ snd (dataRoute cfg 0 request Sample.noCollection)
    = [DbGetCollection (queryCollection request) (queryOptions false);
       Reply (ReplyPayload (emptyPayload request))]
  ∧ responseHeaders (snd (dataRoute cfg 0 request Sample.noCollection)) = []
  ∧ responseHeaders (snd (dataRoute cfg 0 request (Sample.found [])))
    = [("Unica-Correlator", "abc")].
Proof. split_and!; vm_compute; reflexivity. Qed.

(** ** Required headers *)

(** C9, at the failing inputs. A [GET] data query without
    [fiware-service], and one with it and without [fiware-servicepath]: the
    validator builds the 400 with validation source [headers] and the
    missing header as its key and hands it to [next]; the response is a
    400 with that message and source, and with no key. *)
Theorem C9_header_keys_not_delivered cfg attended db :
  let answer hs :=
    (validationFailure (snd (validateDataHeaders attended hs)),
     snd (dataRoute cfg attended (Sample.get hs Sample.noQuery) db)) in
  let built message key :=
    Boom 400 message (Some {| source := "headers"; keys := [key] |}) in
  let sent message :=
    [Reply (ReplyError
              (Boom 400 message (Some {| source := "headers"; keys := [] |})))] in
  (∃ message,
     answer ∅ = (Some (built message "fiware-service"), sent message)
     ∧ responseStatus (sent message) = Some 400)
  ∧ (∃ message,
       answer (<["fiware-service" := "orion"]> ∅)
       = (Some (built message "fiware-servicepath"), sent message)
       ∧ responseStatus (sent message) = Some 400).
Proof. split; eexists; split; reflexivity. Qed.

(** ** Which attributes are retained *)

(** On an attribute whose members can be read and whose value is not the
    number zero, the test of the loops is the negation of [retained]. *)
Lemma notAggregatable_retained cfg attr :
  readable attr = true →
  isZero (getMember attr "value") = false →
  notAggregatable cfg attr = Normal (negb (retained cfg (getMember attr "value"))).
Proof.
  intros Hattr Hzero. unfold notAggregatable.
  rewrite (getProp_readable _ _ Hattr). simpl. f_equal.
  destruct (getMember attr "value") as [| |b|q|s|items|fields]; simpl in *; try done.
  - by destruct b.
  - rewrite Hzero. simpl. by destruct (IGNORE_BLANK_SPACES cfg).
  - destruct (String.eqb s EmptyString); simpl; [done|].
    by destruct (IGNORE_BLANK_SPACES cfg), (String.eqb (trim s) EmptyString).
Qed.

Lemma keeps_retained cfg attr :
  readable attr = true →
  isZero (getMember attr "value") = false →
  keeps cfg attr = retained cfg (getMember attr "value").
Proof.
  intros Hattr Hzero. unfold keeps.
  rewrite (notAggregatable_retained _ _ Hattr Hzero). apply negb_involutive.
Qed.

Lemma retainedOfElement_kept cfg t ce attributes :
  Forall (fun attr => readable attr = true) attributes →
  retainedOfElement cfg t ce attributes
  = Normal (map (fun attr => task ce attr t) (List.filter (keeps cfg) attributes)).
Proof.
  induction 1 as [|attr rest Hattr _ IH]; [done|].
  simpl. rewrite IH. unfold keeps, notAggregatable.
  rewrite (getProp_readable _ _ Hattr). simpl.
  by destruct (_ || _ || _).
Qed.

Lemma retainedOfResponses_kept cfg t contextResponses :
  allReadable contextResponses →
  retainedOfResponses cfg t contextResponses
  = Normal (flat_map (keptOf cfg t) contextResponses).
Proof.
  induction 1 as [|cr rest [Hcr Hattrs] _ IH]; [done|].
  simpl. rewrite IH. unfold keptOf.
  assert (Hvisit : ∃ v, attributesToVisit cr = Normal v).
  { unfold attributesToVisit. rewrite (getProp_readable _ _ Hcr). simpl.
    destruct (truthy (getMember cr "contextElement")) eqn:Hce; [|by eexists].
    rewrite (getProp_readable _ _ (truthy_readable _ Hce)). simpl.
    destruct (_ && _); by eexists. }
  destruct Hvisit as [[[ce attributes]|] Hvisit]; rewrite Hvisit; simpl; [|done].
  by rewrite (retainedOfElement_kept _ _ _ _ (Hattrs _ _ Hvisit)).
Qed.

(** The notifications the loops read without throwing are those without
    an unreadable element: the ones that make the handler throw. *)
Lemma allReadable_iff contextResponses :
  allReadable contextResponses ↔ ¬ unreadableIn contextResponses.
Proof.
  unfold allReadable, unreadableIn.
  rewrite Forall_forall, Exists_exists. split.
  - intros Hall (cr & Hcr & [Hbad|(ce & attributes & Hvisit & Hbad)]).
    + destruct (Hall _ Hcr) as [Hr _]. congruence.
    + destruct (Hall _ Hcr) as [_ Hattrs]. specialize (Hattrs _ _ Hvisit).
      rewrite Forall_forall in Hattrs. apply Exists_exists in Hbad as (attr & Hin & Hbad).
      specialize (Hattrs _ Hin). congruence.
  - intros Hnone cr Hcr. split.
    + destruct (readable cr) eqn:Hr; [done|].
      exfalso. apply Hnone. exists cr. split; [done|by left].
    + intros ce attributes Hvisit. apply Forall_forall. intros attr Hin.
      destruct (readable attr) eqn:Hr; [done|].
      exfalso. apply Hnone. exists cr. split; [done|]. right.
      exists ce, attributes. split; [done|].
      apply Exists_exists. by exists attr.
Qed.

(** C4, as amended. For every notification the handler reads without
    throwing (nothing [null] or [undefined] among the elements of
    [contextResponses] and the attributes of the context elements visited:
    by [allReadable_iff], every notification but those on which the handler
    throws a [TypeError] and stores nothing), an attribute whose
    value is not the number zero is retained for storage if and only if its
    value is a non-empty string or a number and, when blank-space ignoring
    is configured, its trimmed string value is not empty. The retained
    attributes, in order, are those [getTotalAttributes] counts and those
    whose two subtasks the handler dispatches; all others are dropped and
    contribute no subtask. *)
Theorem C4_retained_attributes cfg t request :
  wellFormed request →
  let contextResponses :=
    arrayItems (getMember (payload request) "contextResponses") in
  allReadable contextResponses →
  let kept := flat_map (keptOf cfg t) contextResponses in
  (∀ attr, readable attr = true → isZero (getMember attr "value") = false →
           keeps cfg attr = retained cfg (getMember attr "value"))
  ∧ (∀ cr ce attributes attr,
       cr ∈ contextResponses →
       attributesToVisit cr = Normal (Some (ce, attributes)) →
       attr ∈ attributes →
       isZero (getMember attr "value") = false →
       (task ce attr t ∈ kept ↔ retained cfg (getMember attr "value") = true))
  ∧ getTotalAttributes cfg (getMember (payload request) "contextResponses")
    = Normal (Z.of_nat (List.length kept))
  ∧ notifyHandler cfg t request
    = Normal (totalTasksOf cfg (Z.of_nat (List.length kept)),
              match kept with
              | [] => emit (Reply (ReplyError noAttributesError)) initialIngest
              | _ => dispatched request kept initialIngest
              end).
Proof.
  intros Hwf contextResponses Hread kept.
  pose proof (retainedOfResponses_kept cfg t contextResponses Hread) as Hkept.
  fold kept in Hkept.
  assert (Hl : retainedAttributes cfg t request = Normal kept).
  { unfold retainedAttributes. by rewrite (wellFormed_getProp _ Hwf). }
  split_and!.
  - apply keeps_retained.
  - intros cr ce attributes attr Hcr Hvisit Hattr Hzero.
    assert (Hr : readable attr = true).
    { unfold allReadable in Hread. rewrite Forall_forall in Hread.
      destruct (Hread _ Hcr) as [_ Hattrs]. specialize (Hattrs _ _ Hvisit).
      rewrite Forall_forall in Hattrs. by apply Hattrs. }
    rewrite <- (keeps_retained cfg attr Hr Hzero).
    unfold kept. rewrite list_elem_of_In, List.in_flat_map. split.
    + intros (cr' & _ & Hin). unfold keptOf in Hin.
      destruct (attributesToVisit cr') as [[[ce' attributes']|]|]; try done.
      apply List.in_map_iff in Hin as (attr' & [= _ <-] & Hin).
      by apply List.filter_In in Hin as [_ ?].
    + intros Hkeeps. exists cr. split; [by apply list_elem_of_In|].
      unfold keptOf. rewrite Hvisit.
      apply (List.in_map (fun a => task ce a t)).
      apply List.filter_In. split; [by apply list_elem_of_In|done].
  - unfold getTotalAttributes. fold contextResponses.
    by rewrite (countContextResponses_retained cfg t), Hkept.
  - rewrite (wellFormed_handler _ _ _ Hwf).
    apply (processAttributes_retained _ _ _ _ Hwf Hl).
Qed.

Lemma C4_retained_attributes_witness :
  getTotalAttributes (Sample.config BOTH true)
    (getMember
       (Sample.notification
          [Sample.attr (JString "21.5"); Sample.attr (JNumber (inject_Z 0));
           Sample.attr (JString " "); Sample.attr JNull;
           Sample.attr (JNumber (inject_Z 3))])
       "contextResponses")
  = Normal 2.
Proof.
  refine (proj1 (proj2 (proj2
    (C4_retained_attributes (Sample.config BOTH true) 0
       (Sample.post
          (Sample.notification
             [Sample.attr (JString "21.5"); Sample.attr (JNumber (inject_Z 0));
              Sample.attr (JString " "); Sample.attr JNull;
              Sample.attr (JNumber (inject_Z 3))]))
       (conj eq_refl eq_refl) _)))).
  constructor; [|constructor]. split; [reflexivity|].
  intros ce attributes H. injection H as <- <-. repeat constructor.
Defined.

(** The empty string is a string, and with blank-space ignoring switched
    off nothing of the specification's words drops it; the server does,
    and a notification of that attribute alone is refused. *)
Lemma C4_counterexample :
  let cfg := Sample.config BOTH false in
  let attr := Sample.attr (JString EmptyString) in
  specRetained cfg (JString EmptyString) = true
  ∧ notAggregatable cfg attr = Normal true
  ∧ getTotalAttributes cfg
      (getMember (Sample.notification [attr]) "contextResponses")
    = Normal 0
  ∧ notifyHandler cfg 0 (Sample.post (Sample.notification [attr]))
    = Normal (0, emit (Reply (ReplyError noAttributesError)) initialIngest).
Proof. split_and!; reflexivity. Qed.

(** The number zero is dropped as well, by the same test [!value]. *)
Lemma zero_not_retained cfg :
  notAggregatable cfg (Sample.attr (JNumber (inject_Z 0))) = Normal true.
Proof. reflexivity. Qed.

(** ** Notifications without retained attributes *)



(** ** Malformed notifications *)

(** C7, at the failing inputs. A [POST /notify] without payload, with a
    payload lacking [contextResponses], or with a [contextResponses] that
    is not an array: the handler returns without calling [reply], nothing
    is left in flight, and no response is made. *)
Theorem C7_malformed_notification_unanswered cfg attended t schedule :
  let silent body :=
    snd (notifyRoute cfg attended t (Sample.post body) schedule)
    = Normal initialIngest in
  silent JNull
  ∧ silent (JObject [])
  ∧ silent (JObject [("contextResponses", JString "none")])
  ∧ responseStatus (trace initialIngest) = None.
Proof.
  unfold notifyRoute, serveNotification. simpl.
  rewrite (run_idle cfg 0 schedule initialIngest eq_refl). done.
Qed.

(** ** One reply per notification *)

(** The counter is incremented by the completions, once each, and by
    nothing else. *)
Lemma fire_completes cfg totalTasks f st p :
  pending st !! (which f mod List.length (pending st))%nat = Some p →
  counter (fire cfg totalTasks f st)
  = counter st + (if completes p f then 1 else 0).
Proof.
  intros Hp. unfold fire. rewrite Hp.
  destruct p as [data|data|data|data]; simpl;
    unfold storeRawData_onCollection, storeAggregatedData_onCollection,
      storeRawData_onStored, storeAggregatedData_onStored;
    try (destruct (err f) as [e|]);
    try (destruct (_ || _)); simpl;
    rewrite ?(proj1 (countAndReply_spec _ _ _)); simpl; lia.
Qed.

(** The state a notification with retained attributes [l] is in when the
    handler returns. *)
Lemma notifyHandler_dispatched cfg t request l :
  wellFormed request →
  retainedAttributes cfg t request = Normal l →
  l ≠ [] →
  notifyHandler cfg t request
  = Normal (totalTasksOf cfg (Z.of_nat (List.length l)),
            dispatched request l initialIngest).
Proof.
  intros Hwf Hl Hne. rewrite (wellFormed_handler _ _ _ Hwf).
  rewrite (processAttributes_retained _ _ _ _ Hwf Hl). by destruct l.
Qed.

(** Every run from that state is before or after its single reply; the
    reply carries the [err] of the firing that takes the counter to
    [totalTasks]; and once nothing is pending the reply has been made. *)
Lemma dispatched_run cfg request l schedule :
  l ≠ [] →
  let totalTasks := totalTasksOf cfg (Z.of_nat (List.length l)) in
  let st0 := dispatched request l initialIngest in
  let st := run cfg totalTasks schedule st0 in
  (repliesOf (trace st) = [] ∧ counter st < totalTasks ∧ pending st ≠ [])
  ∨ (∃ pre f post,
       schedule = pre ++ f :: post
       ∧ counter (run cfg totalTasks pre st0) = totalTasks - 1
       ∧ counter (run cfg totalTasks (pre ++ [f]) st0) = totalTasks
       ∧ repliesOf (trace st) = [replyErr (err f)]
       ∧ totalTasks ≤ counter st).
Proof.
  intros Hne totalTasks st0 st.
  assert (Hpos : 0 < totalTasks).
  { apply totalTasksOf_pos. destruct l; [done|]. simpl. lia. }
  destruct (run_reply cfg totalTasks schedule st0) as [[Hr Hc]|H].
  - simpl. apply repliesOf_collectionCalls.
  - simpl. lia.
  - left. split_and!; [done..|].
    intros Hdone. pose proof (run_owed cfg totalTasks schedule st0) as Howed.
    fold st in Howed. rewrite Hdone in Howed. simpl in Howed.
    rewrite totalTasksOf_owed in Howed. fold totalTasks in Howed.
    unfold st in Howed. lia.
  - by right.
Qed.

(** C3. For every processed notification with at least one retained
    attribute, exactly one HTTP reply is emitted: the shared counter starts
    at zero and is incremented once per subtask completion, success or
    failure; the reply has been made exactly when the counter has reached
    the total task count (2N for store mode BOTH, N otherwise, N being the
    retained attribute count); no run of the callbacks makes a second
    reply, and every run that fires all callbacks ends with that one
    reply. *)
Theorem C3_exactly_one_reply cfg t request l :
  wellFormed request →
  retainedAttributes cfg t request = Normal l →
  l ≠ [] →
  let N := Z.of_nat (List.length l) in
  let totalTasks := match SHOULD_STORE cfg with BOTH => 2 * N | _ => N end in
  ∃ st0,
    notifyHandler cfg t request = Normal (totalTasks, st0)
    ∧ counter st0 = 0
    ∧ (∀ f st p,
         pending st !! (which f mod List.length (pending st))%nat = Some p →
         counter (fire cfg totalTasks f st)
         = counter st + (if completes p f then 1 else 0))
    ∧ ∀ schedule,
        let st := run cfg totalTasks schedule st0 in
        (repliesOf (trace st) = [] ↔ counter st < totalTasks)
        ∧ (List.length (repliesOf (trace st)) ≤ 1)%nat
        ∧ ((4 * List.length l ≤ List.length schedule)%nat →
           pending st = [] ∧ List.length (repliesOf (trace st)) = 1%nat).
Proof.
  intros Hwf Hl Hne N totalTasks.
  assert (Htotal : totalTasks = totalTasksOf cfg N).
  { unfold totalTasks, totalTasksOf.
    destruct (SHOULD_STORE cfg); unfold DataToStore_eqb; lia. }
  exists (dispatched request l initialIngest).
  split_and!; [|done|intros; by apply fire_completes|].
  { rewrite Htotal. by apply notifyHandler_dispatched. }
  intros schedule st.
  assert (Hdrain : (4 * List.length l ≤ List.length schedule)%nat → pending st = []).
  { intros Hlen. apply run_drains. simpl. by rewrite weightAll_callbacks. }
  destruct (dispatched_run cfg request l schedule Hne)
    as [(Hr & Hc & Hp)|(pre & f & post & _ & _ & _ & Hr & Hc)];
    fold N in Hr, Hc; rewrite <- Htotal in Hr, Hc; fold st in Hr, Hc.
  - fold N in Hp. rewrite <- Htotal in Hp. fold st in Hp.
    rewrite Hr. simpl. split_and!; [done|lia|].
    intros Hlen. by apply Hdrain in Hlen.
  - rewrite Hr. simpl. split_and!; [|lia|by intros ?%Hdrain].
    split; [done|lia].
Qed.

Lemma C3_exactly_one_reply_witness :
  ∃ st,
    serveNotification (Sample.config ONLY_RAW true) 0
      (Sample.post (Sample.notification [Sample.attr (JString "21.5")]))
      [Sample.ko 1 "no collection"; Sample.ok 0; Sample.ok 0; Sample.ok 0]
    = Normal st
    ∧ List.length (repliesOf (trace st)) = 1%nat.
Proof.
  destruct (C3_exactly_one_reply (Sample.config ONLY_RAW true) 0
              (Sample.post (Sample.notification [Sample.attr (JString "21.5")]))
              [task (Sample.element [Sample.attr (JString "21.5")])
                 (Sample.attr (JString "21.5")) 0])
    as (st0 & Hhandler & _ & _ & Hrun).
  - split; reflexivity.
  - reflexivity.
  - discriminate.
  - exists (run (Sample.config ONLY_RAW true) 1
              [Sample.ko 1 "no collection"; Sample.ok 0; Sample.ok 0; Sample.ok 0]
              st0).
    split.
    + unfold serveNotification. rewrite Hhandler. reflexivity.
    + apply (Hrun [Sample.ko 1 "no collection"; Sample.ok 0; Sample.ok 0; Sample.ok 0]).
      simpl. lia.
Defined.

(** ** What the reply carries *)

(** C1, as amended. For every notification with retained attributes whose
    subtasks have all settled, the single HTTP reply carries the outcome of
    the subtask completion that takes the shared counter to the total task
    count: the error of that completion if it failed, success if it did
    not; in particular success if no subtask failed. *)
Theorem C1_reply_carries_counted_outcome cfg t request l schedule st :
  wellFormed request →
  retainedAttributes cfg t request = Normal l →
  l ≠ [] →
  serveNotification cfg t request schedule = Normal st →
  pending st = [] →
  ∃ totalTasks st0,
    notifyHandler cfg t request = Normal (totalTasks, st0)
    ∧ (∃ pre f post,
         schedule = pre ++ f :: post
         ∧ counter (run cfg totalTasks pre st0) = totalTasks - 1
         ∧ counter (run cfg totalTasks (pre ++ [f]) st0) = totalTasks
         ∧ repliesOf (trace st) = [replyErr (err f)])
    ∧ (firstError schedule = None → repliesOf (trace st) = [Reply ReplyEmpty]).
Proof.
  intros Hwf Hl Hne Hserve Hdone.
  pose proof (notifyHandler_dispatched cfg t request l Hwf Hl Hne) as Hhandler.
  unfold serveNotification in Hserve. rewrite Hhandler in Hserve. simpl in Hserve.
  injection Hserve as <-.
  eexists _, _. split; [exact Hhandler|].
  destruct (dispatched_run cfg request l schedule Hne)
    as [(_ & _ & Hp)|(pre & f & post & -> & Hpre & Hf & Hr & _)]; [done|].
  split; [by exists pre, f, post|].
  intros Hnone. rewrite Hr.
  assert (Hf' : err f = None).
  { clear -Hnone. induction pre as [|g pre IH]; simpl in Hnone.
    - by destruct (err f).
    - destruct (err g); [done|]. by apply IH. }
  by rewrite Hf'.
Qed.

Lemma C1_reply_carries_counted_outcome_witness :
  ∃ st,
    serveNotification (Sample.config BOTH true) 0
      (Sample.post (Sample.notification [Sample.attr (JString "21.5")]))
      [Sample.ok 0; Sample.ok 0; Sample.ok 0; Sample.ok 0]
    = Normal st
    ∧ repliesOf (trace st) = [Reply ReplyEmpty].
Proof.
  eexists. split; [reflexivity|].
  destruct (C1_reply_carries_counted_outcome (Sample.config BOTH true) 0
              (Sample.post (Sample.notification [Sample.attr (JString "21.5")]))
              [task (Sample.element [Sample.attr (JString "21.5")])
                 (Sample.attr (JString "21.5")) 0]
              [Sample.ok 0; Sample.ok 0; Sample.ok 0; Sample.ok 0]
              _ (conj eq_refl eq_refl) eq_refl ltac:(discriminate) eq_refl eq_refl)
    as (totalTasks & st0 & _ & _ & H).
  exact (H eq_refl).
Defined.

(** Store mode BOTH, one attribute: the raw write fails, the aggregated
    write succeeds and is the last to settle. The reply is a success,
    although an error was observed before it. *)
Lemma C1_counterexample :
  let schedule :=
    [Sample.ok 0; Sample.ok 0; Sample.ko 0 "write failed"; Sample.ok 0] in
  ∃ st,
    serveNotification (Sample.config BOTH true) 0
      (Sample.post (Sample.notification [Sample.attr (JString "21.5")]))
      schedule
    = Normal st
    ∧ pending st = []
    ∧ firstError schedule = Some (DbError "write failed")
    ∧ repliesOf (trace st) = [Reply ReplyEmpty]
    ∧ repliesOf (trace st) ≠ [replyErr (firstError schedule)].
Proof.
  eexists. split_and!; [reflexivity..|]. vm_compute. discriminate.
Qed.

(** ** Collections and store modes *)

Lemma Forall_snoc {A} (P : A → Prop) l x : Forall P l → P x → Forall P (l ++ [x]).
Proof. intros. apply Forall_app. by split; [|constructor]. Qed.

(** The callbacks add replies and permitted writes to the trace, and
    nothing else. *)
Lemma fire_trace cfg totalTasks (P : Effect → Prop) f st :
  (∀ r, P (Reply r)) →
  (∀ a, SHOULD_STORE cfg ≠ ONLY_AGGREGATED → P (DbStoreRawData a)) →
  (∀ a, SHOULD_STORE cfg ≠ ONLY_RAW → P (DbStoreAggregatedData a)) →
  Forall P (trace st) → Forall P (trace (fire cfg totalTasks f st)).
Proof.
  intros Hreply Hraw Haggr Hst. unfold fire.
  destruct (pending st !! _) as [p|]; [|done].
  set (st' := {| counter := counter st; pending := _; trace := trace st |}).
  assert (Hcount : ∀ e, Forall P (trace (countAndReply totalTasks e st'))).
  { intros e. rewrite (proj2 (proj2 (countAndReply_spec totalTasks e st'))).
    apply Forall_app. split; [done|].
    destruct (_ =? _); [|done]. constructor; [|done]. destruct e; apply Hreply. }
  destruct p as [data|data|data|data]; simpl; try apply Hcount.
  - unfold storeRawData_onCollection. destruct (err f); [apply Hcount|].
    destruct (SHOULD_STORE cfg) eqn:Hmode; simpl; try done;
      apply Forall_snoc; try done; apply Hraw; congruence.
  - unfold storeAggregatedData_onCollection. destruct (err f); [apply Hcount|].
    destruct (SHOULD_STORE cfg) eqn:Hmode; simpl; try done;
      apply Forall_snoc; try done; apply Haggr; congruence.
Qed.

Lemma run_trace cfg totalTasks (P : Effect → Prop) schedule st :
  (∀ r, P (Reply r)) →
  (∀ a, SHOULD_STORE cfg ≠ ONLY_AGGREGATED → P (DbStoreRawData a)) →
  (∀ a, SHOULD_STORE cfg ≠ ONLY_RAW → P (DbStoreAggregatedData a)) →
  Forall P (trace st) → Forall P (trace (run cfg totalTasks schedule st)).
Proof.
  intros Hreply Hraw Haggr. revert st.
  induction schedule as [|f s IH]; intros st Hst; [done|].
  rewrite run_cons. apply IH. by apply fire_trace.
Qed.

(** C10. For every retained attribute of every notification, the handler
    calls [getCollection] for the raw and for the aggregated collection,
    both with creation, hash storage and truncation switched on, whatever
    the store mode; the callbacks call it no more; and the store mode gates
    the document writes only: the callback of a located raw collection
    writes exactly when the mode is ONLY_RAW or BOTH, that of a located
    aggregated collection exactly when it is ONLY_AGGREGATED or BOTH. *)
Theorem C10_collections_whatever_the_mode cfg t request l :
  wellFormed request →
  retainedAttributes cfg t request = Normal l →
  l ≠ [] →
  ∃ totalTasks st0,
    notifyHandler cfg t request = Normal (totalTasks, st0)
    ∧ trace st0
      = flat_map
          (fun d =>
             [DbGetCollection (storeParams request d)
                {| isAggregated := false; shouldCreate := true;
                   shouldStoreHash := true; shouldTruncate := true |};
              DbGetCollection (storeParams request d)
                {| isAggregated := true; shouldCreate := true;
                   shouldStoreHash := true; shouldTruncate := true |}]) l
    ∧ (∀ schedule,
         Forall (fun e => writeAllowed cfg e ∧ collectionFor request l e)
           (trace (run cfg totalTasks schedule st0)))
    ∧ (∀ d c st,
         trace (storeRawData_onCollection cfg totalTasks d None c st)
         = trace st
           ++ match SHOULD_STORE cfg with
              | ONLY_AGGREGATED => []
              | _ => [DbStoreRawData (storeArgs d c)]
              end)
    ∧ (∀ d c st,
         trace (storeAggregatedData_onCollection cfg totalTasks d None c st)
         = trace st
           ++ match SHOULD_STORE cfg with
              | ONLY_RAW => []
              | _ => [DbStoreAggregatedData (storeArgs d c)]
              end).
Proof.
  intros Hwf Hl Hne. eexists _, _.
  split; [by apply notifyHandler_dispatched|].
  split_and!.
  - done.
  - intros schedule. apply run_trace; try done.
    simpl. apply Forall_flat_map, Forall_forall. intros d Hd.
    assert (Hcall : ∀ o, shouldCreate o = true → shouldStoreHash o = true →
              shouldTruncate o = true →
              writeAllowed cfg (DbGetCollection (storeParams request d) o)
              ∧ collectionFor request l (DbGetCollection (storeParams request d) o)).
    { intros o ???. split; [done|]. by exists d. }
    constructor; [by apply Hcall|]. constructor; [by apply Hcall|]. constructor.
  - intros d c st. unfold storeRawData_onCollection.
    destruct (SHOULD_STORE cfg); simpl; by rewrite ?app_nil_r.
  - intros d c st. unfold storeAggregatedData_onCollection.
    destruct (SHOULD_STORE cfg); simpl; by rewrite ?app_nil_r.
Qed.

Lemma C10_collections_whatever_the_mode_witness :
  ∃ totalTasks st0,
    notifyHandler (Sample.config ONLY_RAW true) 0
      (Sample.post (Sample.notification [Sample.attr (JString "21.5")]))
    = Normal (totalTasks, st0)
    ∧ List.length (trace st0) = 2%nat.
Proof.
  destruct (C10_collections_whatever_the_mode (Sample.config ONLY_RAW true) 0
              (Sample.post (Sample.notification [Sample.attr (JString "21.5")]))
              [task (Sample.element [Sample.attr (JString "21.5")])
                 (Sample.attr (JString "21.5")) 0]
              (conj eq_refl eq_refl) eq_refl ltac:(discriminate))
    as (totalTasks & st0 & Hhandler & Htrace & _).
  exists totalTasks, st0. split; [exact Hhandler|]. rewrite Htrace. reflexivity.
Defined.

(** ** The replies of the data route *)

Lemma repliesOf_echoCorrelator correlator : repliesOf (echoCorrelator correlator) = [].
Proof.
  destruct correlator as [| | | |s| |]; try done.
  unfold echoCorrelator. by destruct (truthy (JString s)).
Qed.

Lemma repliesOf_echoCorrelatorAfter err correlator :
  repliesOf (echoCorrelatorAfter err correlator) = [].
Proof.
  destruct err; simpl; [by destruct (truthy correlator)|].
  apply repliesOf_echoCorrelator.
Qed.

(** The raw path replies once, whatever the driver answers. *)
Lemma getRawData_replies_once request correlator db :
  List.length (repliesOf (getRawData request correlator db)) = 1%nat.
Proof.
  unfold getRawData, getRawData_onCollection.
  destruct (qd_collectionErr db); [done|].
  unfold getRawData_onData. simpl.
  rewrite repliesOf_app, repliesOf_echoCorrelatorAfter.
  rewrite app_nil_r. destruct (qd_dataErr db); [done|].
  destruct (qd_result db) as [|docs| |path]; simpl; try done.
  - by destruct docs.
  - by destruct path.
Qed.

(** So does the aggregated path. *)
Lemma getAggregatedData_replies_once cfg request correlator db :
  List.length (repliesOf (getAggregatedData cfg request correlator db)) = 1%nat.
Proof.
  unfold getAggregatedData, getAggregatedData_onCollection.
  destruct (qd_collectionErr db); [done|].
  unfold getAggregatedData_onData. simpl.
  rewrite repliesOf_app, repliesOf_echoCorrelatorAfter, app_nil_r.
  destruct (qd_dataErr db); [done|].
  by destruct (qd_buckets db) as [[|bucket buckets]|].
Qed.

(** What the data route does: with a header missing or empty, or a query
    joi refuses, hapi's 400; otherwise what the handler does. *)
Lemma dataRoute_cases cfg attended request db :
  (∃ e, snd (dataRoute cfg attended request db) = [Reply (ReplyError e)]
        ∧ statusOfError e = 400)
  ∨ snd (dataRoute cfg attended request db) = dataHandler cfg request db.
Proof.
  unfold dataRoute, validateDataHeaders.
  assert (Hquery :
    (∃ e, match qd_refusal db with
          | Some (message, keys) =>
              [Reply (ReplyError (refusal "query" message keys))]
          | None => dataHandler cfg request db
          end = [Reply (ReplyError e)] ∧ statusOfError e = 400)
    ∨ match qd_refusal db with
      | Some (message, keys) =>
          [Reply (ReplyError (refusal "query" message keys))]
      | None => dataHandler cfg request db
      end = dataHandler cfg request db).
  { destruct (qd_refusal db) as [[message keys]|]; [left; by eexists|by right]. }
  destruct (headers request !! "fiware-service") as [s|]; simpl.
  - destruct (String.eqb s EmptyString); simpl; [left; by eexists|].
    destruct (headers request !! "fiware-servicepath") as [p|]; simpl.
    + destruct (String.eqb p EmptyString); simpl; [left; by eexists|done].
    + left. by eexists.
  - left. by eexists.
Qed.

(** X1. Every request on the data route is replied to exactly once,
    whatever its headers, its query and the driver's answers. *)
Theorem dataRoute_replies_once cfg attended request db :
  List.length (repliesOf (snd (dataRoute cfg attended request db))) = 1%nat.
Proof.
  destruct (dataRoute_cases cfg attended request db) as [(e & -> & _)| ->]; [done|].
  unfold dataHandler. destruct (_ || _ || _).
  - apply getRawData_replies_once.
  - destruct (_ && _); [apply getAggregatedData_replies_once|done].
Qed.

(** X2. The response of the data route has status 200 or 400, or, when
    the driver has found the collection and fails to read it, the status of
    the error it reports; or it is the file the driver names as the result
    of the raw read, whose status hapi finds when it opens the file. *)
Theorem dataRoute_status cfg attended request db :
  let status := responseStatus (snd (dataRoute cfg attended request db)) in
  status = Some 200
  ∨ status = Some 400
  ∨ (∃ e, qd_collectionErr db = None ∧ qd_dataErr db = Some e
          ∧ status = Some (statusOfError e))
  ∨ (∃ path, qd_collectionErr db = None ∧ qd_dataErr db = None
             ∧ qd_result db = ResultFile path
             ∧ repliesOf (snd (dataRoute cfg attended request db))
               = [ReplyFile path]).
Proof.
  cbv zeta. destruct (dataRoute_cases cfg attended request db) as [(e & -> & He)| ->].
  { right. left. unfold responseStatus. simpl. by rewrite He. }
  unfold dataHandler. destruct (_ || _ || _); [|destruct (_ && _)].
  - unfold responseStatus, getRawData, getRawData_onCollection.
    destruct (qd_collectionErr db); [by left|].
    unfold getRawData_onData. simpl.
    rewrite repliesOf_app, repliesOf_echoCorrelatorAfter, app_nil_r.
    destruct (qd_dataErr db) as [e|]; [right; right; left; by exists e|].
    destruct (qd_result db) as [|docs| |path]; simpl; try by left.
    + left. by destruct docs.
    + destruct path as [|c path]; [by left|].
      right. right. right. by eexists.
  - unfold responseStatus, getAggregatedData, getAggregatedData_onCollection.
    destruct (qd_collectionErr db); [by left|].
    unfold getAggregatedData_onData. simpl.
    rewrite repliesOf_app, repliesOf_echoCorrelatorAfter, app_nil_r.
    destruct (qd_dataErr db) as [e|]; [right; right; left; by exists e|].
    left. by destruct (qd_buckets db) as [[|bucket buckets]|].
  - right. by left.
Qed.

Lemma queryCall_echoCorrelator db correlator :
  Forall (queryCall db) (echoCorrelator correlator).
Proof.
  destruct correlator as [| | | |s| |]; try done.
  unfold echoCorrelator. destruct (truthy (JString s)); repeat constructor.
Qed.

Lemma queryCall_echoCorrelatorAfter db err correlator :
  Forall (queryCall db) (echoCorrelatorAfter err correlator).
Proof.
  destruct err; simpl; [|apply queryCall_echoCorrelator].
  destruct (truthy correlator); by repeat constructor.
Qed.

(** X3. A query never creates, hashes or truncates a collection and never
    writes a document; it reads data only once the driver has found the
    collection, and from that collection. *)
Theorem dataRoute_reads_only cfg attended request db :
  Forall (queryCall db) (snd (dataRoute cfg attended request db)).
Proof.
  destruct (dataRoute_cases cfg attended request db) as [(e & -> & _)| ->].
  { by repeat constructor. }
  unfold dataHandler. destruct (_ || _ || _); [|destruct (_ && _)].
  - unfold getRawData, getRawData_onCollection. constructor; [done|].
    destruct (qd_collectionErr db) eqn:Hfound; [by repeat constructor|].
    constructor; [done|]. unfold getRawData_onData.
    apply Forall_app. split; [|apply queryCall_echoCorrelatorAfter].
    destruct (qd_dataErr db); [by repeat constructor|].
    destruct (_ || _); [by repeat constructor|].
    destruct (qd_result db); by repeat constructor.
  - unfold getAggregatedData, getAggregatedData_onCollection. constructor; [done|].
    destruct (qd_collectionErr db) eqn:Hfound; [by repeat constructor|].
    constructor; [done|]. unfold getAggregatedData_onData.
    apply Forall_app. split; [|apply queryCall_echoCorrelatorAfter].
    destruct (qd_dataErr db); [by repeat constructor|].
    destruct (qd_buckets db) as [[|bucket buckets]|]; by repeat constructor.
  - by repeat constructor.
Qed.

(** X4. When the driver has found the collection and the read fails, both
    paths reply with the error the driver reports, and with nothing else. *)
Theorem read_error_is_forwarded cfg request correlator db e :
  qd_collectionErr db = None →
  qd_dataErr db = Some e →
  repliesOf (getRawData request correlator db) = [Reply (ReplyError e)]
  ∧ repliesOf (getAggregatedData cfg request correlator db)
    = [Reply (ReplyError e)]
  ∧ responseStatus (getRawData request correlator db) = Some (statusOfError e)
  ∧ responseStatus (getAggregatedData cfg request correlator db)
    = Some (statusOfError e).
Proof.
  intros Hfound Herr.
  unfold responseStatus, getRawData, getRawData_onCollection, getAggregatedData,
    getAggregatedData_onCollection, getRawData_onData, getAggregatedData_onData.
  rewrite Hfound, Herr. simpl. by destruct (truthy correlator).
Qed.

Lemma read_error_is_forwarded_witness :
  let db :=
    {| qd_collectionErr := None; qd_collection := Sample.handle;
       qd_dataErr := Some (DbError "cursor lost"); qd_result := ResultNone;
       qd_buckets := None; qd_refusal := None |} in
  responseStatus
    (getRawData (Sample.get Sample.tenantHeaders Sample.noQuery) JUndefined db)
  = Some 500.
Proof.
  simpl.
  apply (read_error_is_forwarded (Sample.config BOTH true)
           (Sample.get Sample.tenantHeaders Sample.noQuery) JUndefined
           {| qd_collectionErr := None; qd_collection := Sample.handle;
              qd_dataErr := Some (DbError "cursor lost"); qd_result := ResultNone;
              qd_buckets := None; qd_refusal := None |} (DbError "cursor lost") eq_refl eq_refl).
Defined.

(** X5. When the collection is found and read without error, the envelope
    of the reply carries under [values] exactly the documents, or the
    buckets, the driver returns, an empty list included; with no result at
    all it carries the empty list. *)
Theorem read_result_is_enveloped cfg request correlator db :
  qd_collectionErr db = None →
  qd_dataErr db = None →
  let envelope values :=
    [Reply (ReplyPayload
              (getNGSIPayload (entityId (params request))
                 (entityType (params request)) (attrName (params request))
                 (JArray values)))] in
  (∀ docs, qd_result db = ResultDocs docs →
           repliesOf (getRawData request correlator db) = envelope docs)
  ∧ (qd_result db = ResultNone →
     repliesOf (getRawData request correlator db) = envelope [])
  ∧ repliesOf (getAggregatedData cfg request correlator db)
    = envelope (default [] (qd_buckets db)).
Proof.
  intros Hfound Hread envelope.
  unfold getRawData, getRawData_onCollection, getAggregatedData,
    getAggregatedData_onCollection, getRawData_onData, getAggregatedData_onData.
  rewrite Hfound, Hread. simpl. rewrite !repliesOf_app, repliesOf_echoCorrelator.
  split_and!.
  - intros docs ->. by destruct docs.
  - by intros ->.
  - by destruct (qd_buckets db) as [[|bucket buckets]|].
Qed.

Lemma read_result_is_enveloped_witness :
  repliesOf
    (getRawData (Sample.get Sample.tenantHeaders Sample.noQuery) JUndefined
       (Sample.found [JString "event"]))
  = [Reply (ReplyPayload (getNGSIPayload "room1" "Room" "t" (JArray [JString "event"])))].
Proof.
  destruct (read_result_is_enveloped (Sample.config BOTH true)
              (Sample.get Sample.tenantHeaders Sample.noQuery) JUndefined
              (Sample.found [JString "event"]) eq_refl eq_refl) as (H & _).
  exact (H [JString "event"] eq_refl).
Defined.

(** ** Files sent by the raw path *)

Lemma hasSep_app_sep dir name : hasSep (dir ++ String "/" name) = true.
Proof. induction dir as [|c dir IH]; simpl; [done|]. by rewrite IH, orb_true_r. Qed.

(** X6. The file name [fileNameOf] extracts holds no separator, and the
    path is that name behind what comes before it. *)
Theorem fileNameOf_suffix path :
  hasSep (fileNameOf path) = false
  ∧ ∃ dir, path = (dir ++ fileNameOf path)%string.
Proof.
  induction path as [|c rest [IHsep [dir IHdir]]]; simpl.
  - split; [done|]. by exists EmptyString.
  - destruct (hasSep rest) eqn:Hrest.
    + split; [done|]. exists (String c dir). exact (f_equal (String c) IHdir).
    + destruct (Ascii.eqb c "/") eqn:Hc.
      * split; [done|]. by exists (String c EmptyString).
      * split; [simpl; by rewrite Hc, Hrest|]. by exists EmptyString.
Qed.

(** X7. The file name of a path is what follows its last separator, and
    a path without separator is its own file name. *)
Theorem fileNameOf_basename dir name :
  hasSep name = false →
  fileNameOf (dir ++ String "/" name) = name ∧ fileNameOf name = name.
Proof.
  intros Hname. split.
  - induction dir as [|c dir IH]; simpl.
    + by rewrite Hname.
    + by rewrite hasSep_app_sep.
  - destruct name as [|c name]; simpl in *; [done|].
    apply orb_false_elim in Hname as [Hc Hname]. by rewrite Hname, Hc.
Qed.

Lemma fileNameOf_basename_witness :
  fileNameOf "/tmp/sth/room1.csv" = "room1.csv".
Proof.
  apply (fileNameOf_basename "/tmp/sth" "room1.csv" eq_refl).
Defined.

Lemma unlink_not_echoed path correlator :
  ResponseOnceFinishUnlink path ∉ echoCorrelator correlator.
Proof.
  destruct correlator as [| | | |s| |]; try apply not_elem_of_nil.
  unfold echoCorrelator. destruct (truthy (JString s)); [|apply not_elem_of_nil].
  intros H. apply list_elem_of_singleton in H. done.
Qed.

Lemma unlink_not_echoedAfter path err correlator :
  ResponseOnceFinishUnlink path ∉ echoCorrelatorAfter err correlator.
Proof.
  destruct err; simpl; [|apply unlink_not_echoed].
  destruct (truthy correlator); [|apply not_elem_of_nil].
  intros H. apply list_elem_of_singleton in H. done.
Qed.

(** X8. The server arranges the removal of a file only when that file is
    the result of the raw read and is what it replies with, as an
    attachment named after the file. *)
Theorem removed_file_was_sent cfg attended request db path :
  ResponseOnceFinishUnlink path ∈ snd (dataRoute cfg attended request db) →
  qd_result db = ResultFile path
  ∧ repliesOf (snd (dataRoute cfg attended request db)) = [ReplyFile path]
  ∧ ResponseHeader "Content-Disposition"
      ("attachment; filename=" ++ fileNameOf path)
    ∈ snd (dataRoute cfg attended request db).
Proof.
  destruct (dataRoute_cases cfg attended request db) as [(e & -> & _)| ->].
  { intros H. apply list_elem_of_singleton in H. done. }
  unfold dataHandler. destruct (_ || _ || _); [|destruct (_ && _)].
  - unfold getRawData, getRawData_onCollection. intros H.
    apply elem_of_cons in H as [H|H]; [done|].
    destruct (qd_collectionErr db).
    { apply list_elem_of_singleton in H. done. }
    apply elem_of_cons in H as [H|H]; [done|].
    unfold getRawData_onData in *. simpl.
    rewrite repliesOf_app, repliesOf_echoCorrelatorAfter, app_nil_r.
    apply elem_of_app in H as [H|H]; [|by apply unlink_not_echoedAfter in H].
    destruct (qd_dataErr db).
    { apply list_elem_of_singleton in H. done. }
    destruct (_ || _).
    { apply list_elem_of_singleton in H. done. }
    destruct (qd_result db) as [|docs| |path'].
    + by apply elem_of_nil in H.
    + apply list_elem_of_singleton in H. done.
    + apply list_elem_of_singleton in H. done.
    + apply elem_of_cons in H as [H|H]; [done|].
      apply elem_of_cons in H as [H|H]; [done|].
      apply list_elem_of_singleton in H. injection H as ->.
      split_and!; [done..|].
      do 2 apply list_elem_of_further. apply elem_of_app. left.
      apply list_elem_of_further, list_elem_of_here.
  - unfold getAggregatedData, getAggregatedData_onCollection. intros H.
    apply elem_of_cons in H as [H|H]; [done|].
    destruct (qd_collectionErr db).
    { apply list_elem_of_singleton in H. done. }
    apply elem_of_cons in H as [H|H]; [done|].
    unfold getAggregatedData_onData in H.
    apply elem_of_app in H as [H|H]; [|by apply unlink_not_echoedAfter in H].
    destruct (qd_dataErr db); [apply list_elem_of_singleton in H; done|].
    destruct (qd_buckets db) as [[|bucket buckets]|];
      apply list_elem_of_singleton in H; done.
  - intros H. apply list_elem_of_singleton in H. done.
Qed.

Lemma removed_file_was_sent_witness :
  let request :=
    Sample.get Sample.tenantHeaders
      {| lastN := JUndefined; hLimit := JUndefined; hOffset := JUndefined;
         aggrMethod := JUndefined; aggrPeriod := JUndefined;
         dateFrom := None; dateTo := None; filetype := JString "csv" |} in
  let db :=
    {| qd_collectionErr := None; qd_collection := Sample.handle;
       qd_dataErr := None; qd_result := ResultFile "/tmp/sth/room1.csv";
       qd_buckets := None; qd_refusal := None |} in
  repliesOf (snd (dataRoute (Sample.config BOTH true) 0 request db))
  = [ReplyFile "/tmp/sth/room1.csv"].
Proof.
  simpl.
  apply (removed_file_was_sent (Sample.config BOTH true) 0
           (Sample.get Sample.tenantHeaders
              {| lastN := JUndefined; hLimit := JUndefined; hOffset := JUndefined;
                 aggrMethod := JUndefined; aggrPeriod := JUndefined;
                 dateFrom := None; dateTo := None; filetype := JString "csv" |})
           {| qd_collectionErr := None; qd_collection := Sample.handle;
              qd_dataErr := None; qd_result := ResultFile "/tmp/sth/room1.csv";
              qd_buckets := None; qd_refusal := None |} "/tmp/sth/room1.csv").
  vm_compute. do 4 apply list_elem_of_further. apply list_elem_of_here.
Defined.

(** ** Header validation and the attended requests *)

Lemma attend_counts cfg n r :
  attend cfg n r = n + (if isVersion r then 0 else 1).
Proof. destruct r; simpl; lia. Qed.

Lemma attendAll_from cfg n requests :
  attendAll cfg n requests
  = n + Z.of_nat (tally (fun r => negb (isVersion r)) requests).
Proof.
  unfold attendAll, tally. revert n.
  induction requests as [|r requests IH]; intros n; simpl; [lia|].
  rewrite IH, attend_counts. destruct (isVersion r); simpl; lia.
Qed.

(** X9. After [resetKPIs], [getKPIs] reports the number of requests that
    have since reached the validator of the data route or of [/notify],
    those it rejects included; requests for [/version] are not counted. *)
Theorem attended_requests_since_reset cfg attended requests :
  getKPIs (attendAll cfg (resetKPIs attended) requests)
  = {| kpi_attendedRequests :=
         Z.of_nat (tally (fun r => negb (isVersion r)) requests) |}.
Proof. unfold getKPIs, resetKPIs. by rewrite attendAll_from. Qed.


Lemma validateNotifyHeaders_spec cfg attended value :
  let result := validateNotifyHeaders cfg attended value in
  snd result = [Next None]
  ∧ snd (fst result) !! "fiware-service"
    = Some (orDefault value "fiware-service" (DEFAULT_SERVICE cfg))
  ∧ snd (fst result) !! "fiware-servicepath"
    = Some (orDefault value "fiware-servicepath" (DEFAULT_SERVICE_PATH cfg))
  ∧ ∀ name, name ≠ "fiware-service" → name ≠ "fiware-servicepath" →
            snd (fst result) !! name = value !! name.
Proof.
  unfold validateNotifyHeaders, orDefault. simpl.
  destruct (value !! "fiware-service") as [s|] eqn:Hs;
    [destruct (String.eqb s EmptyString)|];
    rewrite ?lookup_insert_ne by done;
    (destruct (value !! "fiware-servicepath") as [p|] eqn:Hp;
     [destruct (String.eqb p EmptyString)|]);
    simpl; split_and!; try done;
    try (intros name H1 H2);
    rewrite ?lookup_insert_eq, ?lookup_insert_ne by done;
    try (by rewrite ?Hs, ?Hp); apply lookup_insert_eq.
Qed.

(** X11. The validator of [/notify] rejects nothing: it calls [next()]
    once; it leaves a given, non-empty [fiware-service] or
    [fiware-servicepath] as it is and sets a missing or empty one to the
    configured default; it touches no other header. *)
Theorem notify_headers_defaulted cfg attended value :
  let result := validateNotifyHeaders cfg attended value in
  snd result = [Next None]
  ∧ snd (fst result) !! "fiware-service"
    = Some (match value !! "fiware-service" with
            | Some s => if String.eqb s EmptyString then DEFAULT_SERVICE cfg else s
            | None => DEFAULT_SERVICE cfg
            end)
  ∧ snd (fst result) !! "fiware-servicepath"
    = Some (match value !! "fiware-servicepath" with
            | Some s =>
                if String.eqb s EmptyString then DEFAULT_SERVICE_PATH cfg else s
            | None => DEFAULT_SERVICE_PATH cfg
            end)
  ∧ ∀ name, name ≠ "fiware-service" → name ≠ "fiware-servicepath" →
            snd (fst result) !! name = value !! name.
Proof. apply validateNotifyHeaders_spec. Qed.

(** ** Notifications that cannot be read *)

(** [processAttributes] on any request: it throws when the retained
    attributes cannot be listed, and otherwise does as
    [processAttributes_retained] says. *)
Lemma processAttributes_cases cfg t request :
  processAttributes cfg t request
  = match retainedAttributes cfg t request with
    | Normal l =>
        Normal (totalTasksOf cfg (Z.of_nat (List.length l)),
                match l with
                | [] => emit (Reply (ReplyError noAttributesError)) initialIngest
                | _ => dispatched request l initialIngest
                end)
    | Throw e => Throw e
    end.
Proof.
  unfold retainedAttributes, processAttributes, getTotalAttributes.
  destruct (getProp (payload request) "contextResponses") as [crs|e]; simpl; [|done].
  rewrite (countContextResponses_retained cfg t).
  rewrite processContextResponses_retained.
  destruct (retainedOfResponses cfg t (arrayItems crs)) as [l|e]; simpl; [|done].
  destruct l as [|d l]; simpl; [done|].
  destruct (Z.eqb_spec (Z.pos (Pos.of_succ_nat (List.length l))) 0); [lia|done].
Qed.

(** X12. If [getTotalAttributes] returns for the [contextResponses] of a
    request, [processAttributes] returns as well: the loop that dispatches
    the subtasks never throws after a first call has been made. It then
    leaves two callbacks in flight per counted attribute. *)
Theorem processAttributes_returns cfg t request n :
  (contextResponses ← getProp (payload request) "contextResponses";
   getTotalAttributes cfg contextResponses) = Normal n →
  ∃ st,
    processAttributes cfg t request = Normal (totalTasksOf cfg n, st)
    ∧ Z.of_nat (List.length (pending st)) = 2 * n.
Proof.
  rewrite processAttributes_cases.
  unfold retainedAttributes, getTotalAttributes.
  destruct (getProp (payload request) "contextResponses") as [crs|e]; simpl; [|done].
  rewrite (countContextResponses_retained cfg t).
  destruct (retainedOfResponses cfg t (arrayItems crs)) as [l|e]; simpl; [|done].
  intros [= <-]. eexists. split; [done|].
  destruct l as [|d l]; [done|]. simpl.
  assert (H : ∀ l', List.length (flat_map collectionCallbacks l')
                    = (2 * List.length l')%nat).
  { induction l' as [|d' l' IH]; simpl; [done|]. rewrite IH. lia. }
  rewrite H. lia.
Qed.

Lemma processAttributes_returns_witness :
  ∃ st,
    processAttributes (Sample.config ONLY_RAW true) 0
      (Sample.post (Sample.notification
                      [Sample.attr (JString "21.5"); Sample.attr (JString "on")]))
    = Normal (2, st)
    ∧ Z.of_nat (List.length (pending st)) = 4.
Proof.
  apply (processAttributes_returns (Sample.config ONLY_RAW true) 0
           (Sample.post (Sample.notification
                           [Sample.attr (JString "21.5"); Sample.attr (JString "on")]))
           2 eq_refl).
Defined.

Lemma countAttributes_unreadable cfg attributes n :
  Exists (fun attr => readable attr = false) attributes →
  countAttributes cfg attributes n = Throw TypeError.
Proof.
  intros H. revert n. induction H as [attr rest Hattr|attr rest _ IH]; intros n; simpl.
  - by destruct attr.
  - destruct (notAggregatable cfg attr) as [skip|[]]; simpl; [apply IH|done].
Qed.

Lemma countContextResponses_unreadable cfg contextResponses n :
  unreadableIn contextResponses →
  countContextResponses cfg contextResponses n = Throw TypeError.
Proof.
  intros H. revert n.
  induction H as [cr rest [Hcr|(ce & attributes & Hvisit & Hattr)]|cr rest _ IH];
    intros n; simpl.
  - by destruct cr.
  - rewrite Hvisit. simpl. by rewrite countAttributes_unreadable.
  - destruct (attributesToVisit cr) as [[[ce attributes]|]|[]]; simpl; [| |done].
    + destruct (countAttributes cfg attributes n) as [n'|[]]; simpl; [apply IH|done].
    + apply IH.
Qed.

(** X13. A notification whose [contextResponses] holds a [null], or a
    context element whose [attributes] array holds one, makes the handler
    throw a [TypeError] while it counts: nothing has been called and no
    reply is made by the handler. *)
Theorem unreadable_notification_throws cfg t request :
  wellFormed request →
  unreadableIn (arrayItems (getMember (payload request) "contextResponses")) →
  notifyHandler cfg t request = Throw TypeError.
Proof.
  intros Hwf Hbad. rewrite (wellFormed_handler _ _ _ Hwf).
  unfold processAttributes, getTotalAttributes.
  rewrite (wellFormed_getProp _ Hwf). simpl.
  by rewrite countContextResponses_unreadable.
Qed.

Lemma unreadable_notification_throws_witness :
  notifyHandler (Sample.config BOTH true) 0
    (Sample.post (Sample.notification [Sample.attr (JString "21.5"); JNull]))
  = Throw TypeError.
Proof.
  apply (unreadable_notification_throws (Sample.config BOTH true) 0
           (Sample.post (Sample.notification [Sample.attr (JString "21.5"); JNull]))
           (conj eq_refl eq_refl)).
  apply Exists_cons_hd. right.
  exists (Sample.element [Sample.attr (JString "21.5"); JNull]),
    [Sample.attr (JString "21.5"); JNull].
  split; [reflexivity|]. apply Exists_cons_tl, Exists_cons_hd. reflexivity.
Defined.

(** ** Elements the loops pass over *)

Lemma countContextResponses_app cfg before after n :
  countContextResponses cfg (before ++ after) n
  = (m ← countContextResponses cfg before n; countContextResponses cfg after m).
Proof.
  revert n. induction before as [|cr before IH]; intros n; simpl; [done|].
  destruct (attributesToVisit cr) as [[[ce attributes]|]|e]; simpl; [| |done].
  - destruct (countAttributes cfg attributes n); simpl; [apply IH|done].
  - apply IH.
Qed.

Lemma processContextResponses_app cfg request t before after st :
  processContextResponses cfg request t (before ++ after) st
  = (st' ← processContextResponses cfg request t before st;
     processContextResponses cfg request t after st').
Proof.
  revert st. induction before as [|cr before IH]; intros st; simpl; [done|].
  destruct (attributesToVisit cr) as [[[ce attributes]|]|e]; simpl; [| |done].
  - destruct (processContextElement cfg request t ce attributes st); simpl;
      [apply IH|done].
  - apply IH.
Qed.

(** X14. An element of [contextResponses] that is not [null] and has no
    [contextElement], or whose [contextElement] has no [attributes] array, is
    passed over: the count and the dispatch are what they are without
    it. *)
Theorem element_without_attributes_ignored cfg request t before cr after st :
  readable cr = true →
  truthy (getMember cr "contextElement") = false
  ∨ isArray (getMember (getMember cr "contextElement") "attributes") = false →
  getTotalAttributes cfg (JArray (before ++ cr :: after))
  = getTotalAttributes cfg (JArray (before ++ after))
  ∧ processContextResponses cfg request t (before ++ cr :: after) st
    = processContextResponses cfg request t (before ++ after) st.
Proof.
  intros Hcr Hce.
  assert (Hvisit : attributesToVisit cr = Normal None).
  { unfold attributesToVisit. rewrite (getProp_readable _ _ Hcr). simpl.
    destruct (truthy (getMember cr "contextElement")) eqn:Htruthy; [|done].
    destruct Hce as [?|Harr]; [done|].
    rewrite (getProp_readable _ _ (truthy_readable _ Htruthy)). simpl.
    by rewrite Harr, andb_false_r. }
  unfold getTotalAttributes. simpl.
  rewrite !countContextResponses_app, !processContextResponses_app. simpl.
  by rewrite Hvisit.
Qed.

Lemma element_without_attributes_ignored_witness :
  getTotalAttributes (Sample.config BOTH true)
    (JArray [JObject [("statusCode", JString "200")];
             JObject [("contextElement",
                       Sample.element [Sample.attr (JString "on")])]])
  = Normal 1.
Proof.
  exact (proj1 (element_without_attributes_ignored (Sample.config BOTH true)
                  (Sample.post JNull) 0 []
                  (JObject [("statusCode", JString "200")])
                  [JObject [("contextElement",
                             Sample.element [Sample.attr (JString "on")])]]
                  initialIngest eq_refl (or_introl eq_refl))).
Defined.

(** ** What a turn of the event loop can do *)

(** A turn of the loop does one of four things: nothing, when nothing is
    pending; count a completion, and reply if the count is reached; call
    the store function of a located collection and register its callback;
    or drop the callback of a located collection the mode does not
    store. *)
Lemma fire_shape cfg totalTasks f st :
  fire cfg totalTasks f st = st
  ∨ ∃ i p,
      pending st !! i = Some p
      ∧ ((completes p f = true
          ∧ fire cfg totalTasks f st
            = {| counter := counter st + 1;
                 pending := delete i (pending st);
                 trace := trace st
                          ++ (if counter st + 1 =? totalTasks
                              then [replyErr (err f)] else []) |})
         ∨ (err f = None ∧ storesRaw cfg = true
            ∧ p = RawCollectionCallback (dataOf p)
            ∧ fire cfg totalTasks f st
              = {| counter := counter st;
                   pending := delete i (pending st)
                              ++ [RawStoredCallback (dataOf p)];
                   trace := trace st
                            ++ [DbStoreRawData
                                  (storeArgs (dataOf p) (collection f))] |})
         ∨ (err f = None ∧ storesAggregated cfg = true
            ∧ p = AggregatedCollectionCallback (dataOf p)
            ∧ fire cfg totalTasks f st
              = {| counter := counter st;
                   pending := delete i (pending st)
                              ++ [AggregatedStoredCallback (dataOf p)];
                   trace := trace st
                            ++ [DbStoreAggregatedData
                                  (storeArgs (dataOf p) (collection f))] |})
         ∨ (err f = None
            ∧ (p = RawCollectionCallback (dataOf p) ∧ storesRaw cfg = false
               ∨ p = AggregatedCollectionCallback (dataOf p)
                 ∧ storesAggregated cfg = false)
            ∧ fire cfg totalTasks f st
              = {| counter := counter st;
                   pending := delete i (pending st);
                   trace := trace st |})).
Proof.
  unfold fire.
  destruct (pending st !! (which f mod List.length (pending st))%nat) as [p|] eqn:Hp;
    [|by left].
  right. eexists _, p. split; [exact Hp|].
  assert (Hcount : ∀ e st',
    countAndReply totalTasks e st'
    = {| counter := counter st' + 1;
         pending := pending st';
         trace := trace st'
                  ++ (if counter st' + 1 =? totalTasks then [replyErr e] else []) |}).
  { intros e st'. unfold countAndReply, emit. simpl.
    destruct (_ =? _); simpl; [done|]. by rewrite app_nil_r. }
  destruct p as [d|d|d|d]; simpl.
  - unfold storeRawData_onCollection. fold (storesRaw cfg).
    destruct (err f) as [e|] eqn:He.
    + left. by rewrite Hcount.
    + destruct (storesRaw cfg) eqn:Hmode.
      * right. left. done.
      * right. right. right. split_and!; [done| |done]. by left.
  - left. unfold storeRawData_onStored. by rewrite Hcount.
  - unfold storeAggregatedData_onCollection. fold (storesAggregated cfg).
    destruct (err f) as [e|] eqn:He.
    + left. by rewrite Hcount.
    + destruct (storesAggregated cfg) eqn:Hmode.
      * right. right. left. done.
      * right. right. right. split_and!; [done| |done]. by right.
  - left. unfold storeAggregatedData_onStored. by rewrite Hcount.
Qed.

Lemma length_delete_lookup {A} (l : list A) i x :
  l !! i = Some x → List.length l = S (List.length (delete i l)).
Proof.
  revert i. induction l as [|y l IH]; intros [|i] H; simplify_eq/=; [done|].
  by rewrite (IH i H).
Qed.

Lemma tally_app {A} (f : A → bool) l1 l2 :
  tally f (l1 ++ l2) = (tally f l1 + tally f l2)%nat.
Proof. unfold tally. by rewrite List.filter_app, length_app. Qed.

Lemma tally_delete {A} (f : A → bool) l i x :
  l !! i = Some x →
  tally f l = ((if f x then 1 else 0) + tally f (delete i l))%nat.
Proof.
  unfold tally. revert i.
  induction l as [|y l IH]; intros [|i] H; simplify_eq/=.
  - by destruct (f x).
  - destruct (f y); simpl; rewrite (IH i H); destruct (f x); lia.
Qed.

Lemma tally_replyErr_raw e : tally isRawWrite [replyErr e] = 0%nat.
Proof. by destruct e. Qed.

Lemma tally_replyErr_aggregated e : tally isAggregatedWrite [replyErr e] = 0%nat.
Proof. by destruct e. Qed.

(** The counter never goes down, and together with the callbacks in
    flight it never goes up. *)
Lemma fire_bound cfg totalTasks f st :
  counter st ≤ counter (fire cfg totalTasks f st)
  ∧ counter (fire cfg totalTasks f st)
    + Z.of_nat (List.length (pending (fire cfg totalTasks f st)))
    ≤ counter st + Z.of_nat (List.length (pending st)).
Proof.
  destruct (fire_shape cfg totalTasks f st)
    as [->|(i & p & Hp & [[_ ->]|[(_ & _ & _ & ->)|[(_ & _ & _ & ->)|(_ & _ & ->)]]])];
    [lia|..]; simpl; rewrite (length_delete_lookup _ _ _ Hp), ?length_app; simpl; lia.
Qed.

Lemma run_bound cfg totalTasks schedule st :
  counter st ≤ counter (run cfg totalTasks schedule st)
  ∧ counter (run cfg totalTasks schedule st)
    + Z.of_nat (List.length (pending (run cfg totalTasks schedule st)))
    ≤ counter st + Z.of_nat (List.length (pending st)).
Proof.
  revert st. induction schedule as [|f s IH]; intros st; [simpl; lia|].
  rewrite run_cons. destruct (IH (fire cfg totalTasks f st)) as [H1 H2].
  destruct (fire_bound cfg totalTasks f st) as [H3 H4]. lia.
Qed.

Lemma length_collectionCallbacks l :
  List.length (flat_map collectionCallbacks l) = (2 * List.length l)%nat.
Proof. induction l as [|d l IH]; simpl; [done|]. rewrite IH. lia. Qed.

(** X15. While a notification with N retained attributes is served, the
    shared counter never decreases and never exceeds 2N less the callbacks
    still in flight; once all callbacks have fired it has reached the
    total task count, and in store mode BOTH it is then exactly 2N. *)
Theorem counter_bounds cfg t request l :
  wellFormed request →
  retainedAttributes cfg t request = Normal l →
  l ≠ [] →
  let N := Z.of_nat (List.length l) in
  ∃ totalTasks st0,
    notifyHandler cfg t request = Normal (totalTasks, st0)
    ∧ ∀ before after,
        let st := run cfg totalTasks before st0 in
        let st' := run cfg totalTasks (before ++ after) st0 in
        0 ≤ counter st ≤ counter st'
        ∧ counter st' + Z.of_nat (List.length (pending st')) ≤ 2 * N
        ∧ (pending st' = [] → totalTasks ≤ counter st')
        ∧ (pending st' = [] → SHOULD_STORE cfg = BOTH → counter st' = 2 * N).
Proof.
  intros Hwf Hl Hne N. eexists _, _.
  split; [by apply notifyHandler_dispatched|].
  intros before after st st'.
  set (st0 := dispatched request l initialIngest) in *.
  set (totalTasks := totalTasksOf cfg (Z.of_nat (List.length l))) in *.
  assert (H0 : counter st0 + Z.of_nat (List.length (pending st0)) = 2 * N).
  { simpl. rewrite length_collectionCallbacks. lia. }
  destruct (run_bound cfg totalTasks before st0) as [Hlow _]. fold st in Hlow.
  assert (Hstep : counter st ≤ counter st').
  { unfold st'. rewrite run_app. apply run_bound. }
  destruct (run_bound cfg totalTasks (before ++ after) st0) as [_ Hhigh].
  fold st' in Hhigh.
  assert (Hdone : pending st' = [] → totalTasks ≤ counter st').
  { intros Hp. pose proof (run_owed cfg totalTasks (before ++ after) st0) as Howed.
    fold st' in Howed. rewrite Hp in Howed. simpl in Howed.
    rewrite totalTasksOf_owed in Howed. fold totalTasks in Howed. lia. }
  assert (Hboth : SHOULD_STORE cfg = BOTH → totalTasks = 2 * N).
  { intros Hmode. unfold totalTasks, totalTasksOf. by rewrite Hmode. }
  simpl in Hlow. clearbody st st' st0 totalTasks N.
  split_and!; [lia|done|lia|done|].
  intros Hp Hmode. specialize (Hdone Hp). specialize (Hboth Hmode).
  rewrite Hp in Hhigh. simpl in Hhigh. lia.
Qed.

Lemma counter_bounds_witness :
  ∃ st,
    serveNotification (Sample.config BOTH true) 0
      (Sample.post (Sample.notification [Sample.attr (JString "21.5")]))
      [Sample.ok 0; Sample.ko 0 "no collection"; Sample.ok 0]
    = Normal st
    ∧ counter st = 2.
Proof.
  destruct (counter_bounds (Sample.config BOTH true) 0
              (Sample.post (Sample.notification [Sample.attr (JString "21.5")]))
              [task (Sample.element [Sample.attr (JString "21.5")])
                 (Sample.attr (JString "21.5")) 0]
              (conj eq_refl eq_refl) eq_refl ltac:(discriminate))
    as (totalTasks & st0 & Hhandler & Hrun).
  exists (run (Sample.config BOTH true) totalTasks
            ([] ++ [Sample.ok 0; Sample.ko 0 "no collection"; Sample.ok 0]) st0).
  injection Hhandler as <- <-. split; [reflexivity|].
  apply (Hrun [] [Sample.ok 0; Sample.ko 0 "no collection"; Sample.ok 0]);
    reflexivity.
Defined.

(** ** The writes of a notification *)

(** A notification served along a schedule ends in one of three ways. *)
Lemma serveNotification_cases cfg t request schedule st :
  serveNotification cfg t request schedule = Normal st →
  st = initialIngest
  ∨ st = emit (Reply (ReplyError noAttributesError)) initialIngest
  ∨ ∃ l, retainedAttributes cfg t request = Normal l ∧ l ≠ []
         ∧ st = run cfg (totalTasksOf cfg (Z.of_nat (List.length l))) schedule
                  (dispatched request l initialIngest).
Proof.
  unfold serveNotification, notifyHandler.
  destruct (_ && _ && _); simpl.
  - rewrite processAttributes_cases.
    destruct (retainedAttributes cfg t request) as [l|e]; simpl; [|done].
    intros [= <-]. destruct l as [|d l].
    + right. left. by rewrite run_idle.
    + right. right. by exists (d :: l).
  - intros [= <-]. left. by rewrite run_idle.
Qed.

Lemma tally_collectionCalls (f : Effect → bool) request l :
  (∀ p o, f (DbGetCollection p o) = false) →
  tally f (flat_map (collectionCalls request) l) = 0%nat.
Proof.
  intros Hf. unfold tally. induction l as [|d l IH]; simpl; [done|].
  by rewrite !Hf.
Qed.

Lemma tally_raw_callbacks l :
  tally awaitsRawCollection (flat_map collectionCallbacks l) = List.length l.
Proof. unfold tally. induction l as [|d l IH]; simpl; [done|]. by rewrite IH. Qed.

Lemma tally_aggregated_callbacks l :
  tally awaitsAggregatedCollection (flat_map collectionCallbacks l) = List.length l.
Proof. unfold tally. induction l as [|d l IH]; simpl; [done|]. by rewrite IH. Qed.

(** Raw writes made and raw collections awaited: a turn of the loop never
    raises their sum, and keeps it when it passes no error and the mode
    stores raw documents. *)
Lemma fire_raw_writes cfg totalTasks f st :
  let st' := fire cfg totalTasks f st in
  (tally isRawWrite (trace st') + tally awaitsRawCollection (pending st')
   ≤ tally isRawWrite (trace st) + tally awaitsRawCollection (pending st))%nat
  ∧ (err f = None → storesRaw cfg = true →
     (tally isRawWrite (trace st') + tally awaitsRawCollection (pending st')
      = tally isRawWrite (trace st) + tally awaitsRawCollection (pending st))%nat).
Proof.
  destruct (fire_shape cfg totalTasks f st)
    as [->|(i & p & Hp & [[Hc ->]|[(He & Hm & Hd & ->)|[(He & Hm & Hd & ->)|(He & Hd & ->)]]])];
    [done|..]; simpl;
    rewrite (tally_delete awaitsRawCollection _ _ _ Hp), ?tally_app.
  - assert (Ht : tally isRawWrite
                   (if counter st + 1 =? totalTasks then [replyErr (err f)] else [])
                 = 0%nat).
    { destruct (_ =? _); [apply tally_replyErr_raw|done]. }
    rewrite Ht. split; [destruct (awaitsRawCollection p); lia|].
    intros He _. destruct p; simpl in *; rewrite ?He in Hc; try done; lia.
  - rewrite Hd. simpl. unfold tally. simpl. lia.
  - rewrite Hd. simpl. unfold tally. simpl. lia.
  - split; [destruct (awaitsRawCollection p); lia|].
    intros _ Hm. destruct Hd as [[_ Hd]|[-> _]]; [congruence|simpl; lia].
Qed.

(** The same for aggregated writes. *)
Lemma fire_aggregated_writes cfg totalTasks f st :
  let st' := fire cfg totalTasks f st in
  (tally isAggregatedWrite (trace st') + tally awaitsAggregatedCollection (pending st')
   ≤ tally isAggregatedWrite (trace st) + tally awaitsAggregatedCollection (pending st))%nat
  ∧ (err f = None → storesAggregated cfg = true →
     (tally isAggregatedWrite (trace st') + tally awaitsAggregatedCollection (pending st')
      = tally isAggregatedWrite (trace st)
        + tally awaitsAggregatedCollection (pending st))%nat).
Proof.
  destruct (fire_shape cfg totalTasks f st)
    as [->|(i & p & Hp & [[Hc ->]|[(He & Hm & Hd & ->)|[(He & Hm & Hd & ->)|(He & Hd & ->)]]])];
    [done|..]; simpl;
    rewrite (tally_delete awaitsAggregatedCollection _ _ _ Hp), ?tally_app.
  - assert (Ht : tally isAggregatedWrite
                   (if counter st + 1 =? totalTasks then [replyErr (err f)] else [])
                 = 0%nat).
    { destruct (_ =? _); [apply tally_replyErr_aggregated|done]. }
    rewrite Ht. split; [destruct (awaitsAggregatedCollection p); lia|].
    intros He _. destruct p; simpl in *; rewrite ?He in Hc; try done; lia.
  - rewrite Hd. simpl. unfold tally. simpl. lia.
  - rewrite Hd. simpl. unfold tally. simpl. lia.
  - split; [destruct (awaitsAggregatedCollection p); lia|].
    intros _ Hm. destruct Hd as [[-> _]|[_ Hd]]; [simpl; lia|congruence].
Qed.

(** The callbacks in flight and the writes made are for the attributes
    [l], turn after turn. *)
Lemma fire_writeFor cfg totalTasks l f st :
  Forall (fun p => dataOf p ∈ l) (pending st) →
  Forall (writeFor l) (trace st) →
  Forall (fun p => dataOf p ∈ l) (pending (fire cfg totalTasks f st))
  ∧ Forall (writeFor l) (trace (fire cfg totalTasks f st)).
Proof.
  intros Hpending Htrace.
  destruct (fire_shape cfg totalTasks f st)
    as [->|(i & p & Hp & [[Hc ->]|[(He & Hm & Hd & ->)|[(He & Hm & Hd & ->)|(He & Hd & ->)]]])];
    [done|..]; simpl;
    pose proof (Forall_lookup_1 _ _ _ _ Hpending Hp) as Hin;
    pose proof (Forall_delete _ _ i Hpending) as Hrest.
  - split; [done|]. apply Forall_app. split; [done|].
    destruct (_ =? _); [|done]. constructor; [|done]. by destruct (err f).
  - split; apply Forall_snoc; try done. by exists (dataOf p), (collection f).
  - split; apply Forall_snoc; try done. by exists (dataOf p), (collection f).
  - done.
Qed.

Lemma run_writes cfg totalTasks l schedule st :
  Forall (fun p => dataOf p ∈ l) (pending st) →
  Forall (writeFor l) (trace st) →
  let st' := run cfg totalTasks schedule st in
  Forall (writeFor l) (trace st')
  ∧ (tally isRawWrite (trace st') + tally awaitsRawCollection (pending st')
     ≤ tally isRawWrite (trace st) + tally awaitsRawCollection (pending st))%nat
  ∧ (tally isAggregatedWrite (trace st')
     + tally awaitsAggregatedCollection (pending st')
     ≤ tally isAggregatedWrite (trace st)
       + tally awaitsAggregatedCollection (pending st))%nat.
Proof.
  revert st. induction schedule as [|f s IH]; intros st Hpending Htrace;
    [by split_and!|].
  cbv zeta. rewrite run_cons.
  destruct (fire_writeFor cfg totalTasks l f st Hpending Htrace) as [Hp' Ht'].
  destruct (IH _ Hp' Ht') as (H1 & H2 & H3).
  destruct (fire_raw_writes cfg totalTasks f st) as [H4 _].
  destruct (fire_aggregated_writes cfg totalTasks f st) as [H5 _].
  cbv zeta in *. split_and!; [done|lia|lia].
Qed.

Lemma dispatched_writeFor request l :
  Forall (fun p => dataOf p ∈ l) (pending (dispatched request l initialIngest))
  ∧ Forall (writeFor l) (trace (dispatched request l initialIngest)).
Proof.
  simpl. split.
  - apply Forall_flat_map, Forall_forall. intros d Hd. by repeat constructor.
  - apply Forall_flat_map, Forall_forall. intros d Hd. by repeat constructor.
Qed.

(** X16. Whatever the driver calls back, every document write of a
    notification is made for one of its retained attributes, with that
    attribute's context element and the receive time of the notification,
    and there are at most as many raw writes, and as many aggregated
    writes, as retained attributes. *)
Theorem writes_are_for_retained_attributes cfg t request l :
  wellFormed request →
  retainedAttributes cfg t request = Normal l →
  l ≠ [] →
  ∃ totalTasks st0,
    notifyHandler cfg t request = Normal (totalTasks, st0)
    ∧ ∀ schedule,
        let st := run cfg totalTasks schedule st0 in
        Forall (writeFor l) (trace st)
        ∧ (tally isRawWrite (trace st) ≤ List.length l)%nat
        ∧ (tally isAggregatedWrite (trace st) ≤ List.length l)%nat.
Proof.
  intros Hwf Hl Hne. eexists _, _.
  split; [by apply notifyHandler_dispatched|].
  intros schedule st.
  destruct (dispatched_writeFor request l) as [Hpending Htrace].
  destruct (run_writes cfg (totalTasksOf cfg (Z.of_nat (List.length l))) l schedule _
              Hpending Htrace) as (H1 & H2 & H3).
  cbv zeta in *. fold st in H1, H2, H3. simpl in H2, H3.
  rewrite tally_collectionCalls, tally_raw_callbacks in H2 by done.
  rewrite tally_collectionCalls, tally_aggregated_callbacks in H3 by done.
  split_and!; [done|lia|lia].
Qed.

Lemma writes_are_for_retained_attributes_witness :
  ∃ totalTasks st0,
    notifyHandler (Sample.config BOTH true) 0
      (Sample.post (Sample.notification [Sample.attr (JString "21.5")]))
    = Normal (totalTasks, st0)
    ∧ (tally isRawWrite
         (trace (run (Sample.config BOTH true) totalTasks
                   [Sample.ok 0; Sample.ok 0] st0)) ≤ 1)%nat.
Proof.
  destruct (writes_are_for_retained_attributes (Sample.config BOTH true) 0
              (Sample.post (Sample.notification [Sample.attr (JString "21.5")]))
              [task (Sample.element [Sample.attr (JString "21.5")])
                 (Sample.attr (JString "21.5")) 0]
              (conj eq_refl eq_refl) eq_refl ltac:(discriminate))
    as (totalTasks & st0 & Hhandler & Hrun).
  exists totalTasks, st0. split; [exact Hhandler|].
  apply (Hrun [Sample.ok 0; Sample.ok 0]).
Defined.

Lemma firstError_None schedule :
  firstError schedule = None → Forall (fun f => err f = None) schedule.
Proof.
  induction schedule as [|f s IH]; simpl; [done|].
  destruct (err f) eqn:He; [done|]. intros H. constructor; [done|by apply IH].
Qed.

Lemma tally_none {A} (f : A → bool) l :
  Forall (fun x => f x = false) l → tally f l = 0%nat.
Proof.
  unfold tally. induction 1 as [|x l Hx _ IH]; simpl; [done|]. by rewrite Hx.
Qed.

Lemma run_writes_exact cfg totalTasks schedule st :
  Forall (fun f => err f = None) schedule →
  let st' := run cfg totalTasks schedule st in
  (storesRaw cfg = true →
   (tally isRawWrite (trace st') + tally awaitsRawCollection (pending st')
    = tally isRawWrite (trace st) + tally awaitsRawCollection (pending st))%nat)
  ∧ (storesAggregated cfg = true →
     (tally isAggregatedWrite (trace st')
      + tally awaitsAggregatedCollection (pending st')
      = tally isAggregatedWrite (trace st)
        + tally awaitsAggregatedCollection (pending st))%nat).
Proof.
  intros Hok. revert st. induction Hok as [|f s Hf _ IH]; intros st; [done|].
  cbv zeta. rewrite run_cons. destruct (IH (fire cfg totalTasks f st)) as [H1 H2].
  destruct (fire_raw_writes cfg totalTasks f st) as [_ H3].
  destruct (fire_aggregated_writes cfg totalTasks f st) as [_ H4].
  cbv zeta in *. split; intros Hm.
  - rewrite (H1 Hm). by apply H3.
  - rewrite (H2 Hm). by apply H4.
Qed.

(** X17. When the driver reports no error and all callbacks have fired,
    each retained attribute has been written once to every family the
    store mode has: N raw writes in modes ONLY_RAW and BOTH, N aggregated
    writes in modes ONLY_AGGREGATED and BOTH, and no write to the other
    family. *)
Theorem writes_without_errors cfg t request l schedule st :
  wellFormed request →
  retainedAttributes cfg t request = Normal l →
  l ≠ [] →
  serveNotification cfg t request schedule = Normal st →
  pending st = [] →
  firstError schedule = None →
  tally isRawWrite (trace st)
  = match SHOULD_STORE cfg with ONLY_AGGREGATED => 0%nat | _ => List.length l end
  ∧ tally isAggregatedWrite (trace st)
    = match SHOULD_STORE cfg with ONLY_RAW => 0%nat | _ => List.length l end.
Proof.
  intros Hwf Hl Hne Hserve Hdone Hok.
  unfold serveNotification in Hserve.
  rewrite (notifyHandler_dispatched cfg t request l Hwf Hl Hne) in Hserve.
  simpl in Hserve. injection Hserve as <-.
  set (totalTasks := totalTasksOf cfg (Z.of_nat (List.length l))) in *.
  set (st0 := dispatched request l initialIngest) in *.
  destruct (run_writes_exact cfg totalTasks schedule st0 (firstError_None _ Hok))
    as [Hraw Haggr].
  cbv zeta in Hraw, Haggr. rewrite Hdone in Hraw, Haggr. simpl in Hraw, Haggr.
  change (tally awaitsRawCollection []) with 0%nat in Hraw.
  change (tally awaitsAggregatedCollection []) with 0%nat in Haggr.
  rewrite tally_collectionCalls, tally_raw_callbacks in Hraw by done.
  rewrite tally_collectionCalls, tally_aggregated_callbacks in Haggr by done.
  assert (Hnone : ∀ (f : Effect → bool),
    (∀ r, f (Reply r) = false) → (∀ p o, f (DbGetCollection p o) = false) →
    (∀ a, SHOULD_STORE cfg ≠ ONLY_AGGREGATED → f (DbStoreRawData a) = false) →
    (∀ a, SHOULD_STORE cfg ≠ ONLY_RAW → f (DbStoreAggregatedData a) = false) →
    tally f (trace (run cfg totalTasks schedule st0)) = 0%nat).
  { intros f H1 H2 H3 H4. apply tally_none, run_trace; try done.
    simpl. apply Forall_flat_map, Forall_forall. intros d _.
    by repeat constructor. }
  unfold storesRaw, storesAggregated in *.
  destruct (SHOULD_STORE cfg) eqn:Hmode; simpl in *; split;
    try (specialize (Hraw eq_refl); lia);
    try (specialize (Haggr eq_refl); lia);
    apply Hnone; try done; intros a Ha; congruence.
Qed.

Lemma writes_without_errors_witness :
  ∃ st,
    serveNotification (Sample.config ONLY_RAW true) 0
      (Sample.post (Sample.notification
                      [Sample.attr (JString "21.5"); Sample.attr (JString "on")]))
      [Sample.ok 0; Sample.ok 0; Sample.ok 0; Sample.ok 0; Sample.ok 0; Sample.ok 0]
    = Normal st
    ∧ tally isRawWrite (trace st) = 2%nat
    ∧ tally isAggregatedWrite (trace st) = 0%nat.
Proof.
  eexists. split; [reflexivity|].
  apply (writes_without_errors (Sample.config ONLY_RAW true) 0
           (Sample.post (Sample.notification
                           [Sample.attr (JString "21.5"); Sample.attr (JString "on")]))
           [task (Sample.element [Sample.attr (JString "21.5"); Sample.attr (JString "on")])
              (Sample.attr (JString "21.5")) 0;
            task (Sample.element [Sample.attr (JString "21.5"); Sample.attr (JString "on")])
              (Sample.attr (JString "on")) 0]
           [Sample.ok 0; Sample.ok 0; Sample.ok 0; Sample.ok 0; Sample.ok 0; Sample.ok 0]
           _ (conj eq_refl eq_refl) eq_refl ltac:(discriminate) eq_refl eq_refl eq_refl).
Defined.

(** ** Where the reply's error comes from *)

Lemma reply_in_repliesOf r effects : Reply r ∈ effects → Reply r ∈ repliesOf effects.
Proof.
  rewrite !list_elem_of_In. intros H. apply List.filter_In. by split.
Qed.

(** X18. The handler of [/notify] replies with an error only if it is its
    own validation error for a notification without retained attributes,
    or an error the driver has passed to one of the callbacks. *)
Theorem reply_error_has_a_cause cfg t request schedule st e :
  serveNotification cfg t request schedule = Normal st →
  Reply (ReplyError e) ∈ trace st →
  e = noAttributesError ∨ ∃ f, f ∈ schedule ∧ err f = Some e.
Proof.
  intros Hserve Hin.
  destruct (serveNotification_cases _ _ _ _ _ Hserve) as [->|[->|(l & Hl & Hne & ->)]].
  - by apply elem_of_nil in Hin.
  - left. apply list_elem_of_singleton in Hin. by injection Hin.
  - right. apply reply_in_repliesOf in Hin.
    destruct (dispatched_run cfg request l schedule Hne)
      as [(Hr & _ & _)|(pre & f & post & -> & _ & _ & Hr & _)];
      cbv zeta in Hr; rewrite Hr in Hin.
    + by apply elem_of_nil in Hin.
    + exists f. split; [apply elem_of_app; right; apply list_elem_of_here|].
      apply list_elem_of_singleton in Hin.
      destruct (err f) as [e'|]; simpl in Hin; [|done]. by injection Hin as ->.
Qed.

Lemma reply_error_has_a_cause_witness :
  ∃ f, f ∈ [Sample.ok 0; Sample.ok 0; Sample.ok 0; Sample.ko 0 "write failed"]
       ∧ err f = Some (DbError "write failed").
Proof.
  destruct (reply_error_has_a_cause (Sample.config BOTH true) 0
              (Sample.post (Sample.notification [Sample.attr (JString "21.5")]))
              [Sample.ok 0; Sample.ok 0; Sample.ok 0; Sample.ko 0 "write failed"]
              _ (DbError "write failed") eq_refl) as [H|H].
  - vm_compute. do 4 apply list_elem_of_further. apply list_elem_of_here.
  - discriminate H.
  - exact H.
Defined.

(** ** The tenant of a notification *)

(** X19. Every collection a notification asks the driver for is that of
    the tenant its headers name, and of the configured default service and
    service path where a header is missing or empty. *)
Theorem notification_tenant cfg attended t request schedule st :
  snd (notifyRoute cfg attended t request schedule) = Normal st →
  Forall
    (fun e =>
       match e with
       | DbGetCollection p _ =>
           cp_service p
           = JString (orDefault (headers request) "fiware-service"
                        (DEFAULT_SERVICE cfg))
           ∧ cp_servicePath p
             = JString (orDefault (headers request) "fiware-servicepath"
                          (DEFAULT_SERVICE_PATH cfg))
       | _ => True
       end)
    (trace st).
Proof.
  unfold notifyRoute.
  pose proof (validateNotifyHeaders_spec cfg attended (headers request))
    as (_ & Hservice & Hpath & _).
  destruct (validateNotifyHeaders cfg attended (headers request))
    as [[attended' value] calls]. simpl in *.
  intros Hserve.
  destruct (serveNotification_cases _ _ _ _ _ Hserve) as [->|[->|(l & Hl & Hne & ->)]].
  - done.
  - by repeat constructor.
  - apply run_trace; try done.
    simpl. apply Forall_flat_map, Forall_forall. intros d _.
    unfold collectionCalls, storeParams, header. simpl.
    rewrite Hservice, Hpath. by repeat constructor.
Qed.

Lemma notification_tenant_witness :
  ∃ st,
    snd (notifyRoute (Sample.config ONLY_RAW true) 0 0
           {| headers := ∅; params := Sample.roomParams; query := Sample.noQuery;
              payload := Sample.notification [Sample.attr (JString "21.5")] |}
           [Sample.ok 0])
    = Normal st
    ∧ ∃ p o, trace st !! 0%nat = Some (DbGetCollection p o)
             ∧ cp_service p = JString "orion".
Proof.
  eexists. split; [reflexivity|].
  pose proof (notification_tenant (Sample.config ONLY_RAW true) 0 0
                {| headers := ∅; params := Sample.roomParams;
                   query := Sample.noQuery;
                   payload := Sample.notification [Sample.attr (JString "21.5")] |}
                [Sample.ok 0] _ eq_refl) as H.
  apply Forall_cons in H as [[H _] _].
  eexists _, _. split; [reflexivity|exact H].
Defined.

(** ** A reply ahead of the writes *)






(** ** The correlator, once more *)

Lemma echoCorrelator_member correlator name v :
  ResponseHeader name v ∈ echoCorrelator correlator →
  name = "Unica-Correlator" ∧ correlator = JString v ∧ v ≠ EmptyString.
Proof.
  destruct correlator as [| | | |s| |]; try (intros H; by apply elem_of_nil in H).
  unfold echoCorrelator. simpl.
  destruct (String.eqb_spec s EmptyString) as [->|Hs]; simpl;
    intros H; [by apply elem_of_nil in H|].
  apply list_elem_of_singleton in H. by injection H as -> ->.
Qed.

Lemma echoCorrelatorAfter_member err correlator name v :
  ResponseHeader name v ∈ echoCorrelatorAfter err correlator →
  name = "Unica-Correlator" ∧ correlator = JString v ∧ v ≠ EmptyString.
Proof.
  destruct err; simpl; [|apply echoCorrelator_member].
  destruct (truthy correlator); intros H;
    [apply list_elem_of_singleton in H; done|by apply elem_of_nil in H].
Qed.

(** X21. The data route sets a [Unica-Correlator] header on its response
    only to the non-empty value the request carries under the configured
    correlator header; it never invents one. *)
Theorem correlator_is_only_echoed cfg attended request db v :
  ResponseHeader "Unica-Correlator" v ∈ snd (dataRoute cfg attended request db) →
  header request (UNICA_CORRELATOR_HEADER cfg) = JString v ∧ v ≠ EmptyString.
Proof.
  destruct (dataRoute_cases cfg attended request db) as [(e & -> & _)| ->].
  { intros H. apply list_elem_of_singleton in H. done. }
  assert (Hecho : ∀ err l,
    (∀ w, ResponseHeader "Unica-Correlator" w ∉ l) →
    ResponseHeader "Unica-Correlator" v
    ∈ l ++ echoCorrelatorAfter err (header request (UNICA_CORRELATOR_HEADER cfg)) →
    header request (UNICA_CORRELATOR_HEADER cfg) = JString v ∧ v ≠ EmptyString).
  { intros err l Hl H. apply elem_of_app in H as [H|H]; [by apply Hl in H|].
    by apply echoCorrelatorAfter_member in H as (_ & ? & ?). }
  assert (Hone : ∀ (e : Effect) w,
    (∀ n x, e ≠ ResponseHeader n x) → ResponseHeader "Unica-Correlator" w ∉ [e]).
  { intros e w He H. apply list_elem_of_singleton in H.
    by apply (He "Unica-Correlator" w). }
  unfold dataHandler. destruct (_ || _ || _); [|destruct (_ && _)].
  - unfold getRawData, getRawData_onCollection. intros H.
    apply elem_of_cons in H as [H|H]; [done|].
    destruct (qd_collectionErr db).
    { apply list_elem_of_singleton in H. done. }
    apply elem_of_cons in H as [H|H]; [done|].
    unfold getRawData_onData in H. revert H. apply Hecho. intros w.
    destruct (qd_dataErr db); [by apply Hone|].
    destruct (_ || _); [by apply Hone|].
    destruct (qd_result db) as [|docs| |path];
      [apply not_elem_of_nil|by apply Hone|by apply Hone|].
    intros H. apply elem_of_cons in H as [H|H]; [done|].
    apply elem_of_cons in H as [H|H]; [done|].
    apply list_elem_of_singleton in H. done.
  - unfold getAggregatedData, getAggregatedData_onCollection. intros H.
    apply elem_of_cons in H as [H|H]; [done|].
    destruct (qd_collectionErr db).
    { apply list_elem_of_singleton in H. done. }
    apply elem_of_cons in H as [H|H]; [done|].
    unfold getAggregatedData_onData in H. revert H. apply Hecho. intros w.
    destruct (qd_dataErr db); [by apply Hone|].
    destruct (qd_buckets db) as [[|bucket buckets]|]; by apply Hone.
  - intros H. apply list_elem_of_singleton in H. done.
Qed.

Lemma correlator_is_only_echoed_witness :
  header
    (Sample.get (<["unica-correlator" := "abc"]> Sample.tenantHeaders)
       {| lastN := JNumber (inject_Z 1); hLimit := JUndefined; hOffset := JUndefined;
          aggrMethod := JUndefined; aggrPeriod := JUndefined;
          dateFrom := None; dateTo := None; filetype := JUndefined |})
    "unica-correlator"
  = JString "abc".
Proof.
  apply (correlator_is_only_echoed (Sample.config BOTH true) 0
           (Sample.get (<["unica-correlator" := "abc"]> Sample.tenantHeaders)
              {| lastN := JNumber (inject_Z 1); hLimit := JUndefined;
                 hOffset := JUndefined; aggrMethod := JUndefined;
                 aggrPeriod := JUndefined; dateFrom := None; dateTo := None;
                 filetype := JUndefined |})
           (Sample.found [JString "event"]) "abc").
  vm_compute. do 3 apply list_elem_of_further. apply list_elem_of_here.
Defined.
